(** * Arduino-MQL: the dispensing controller of [src/main.cpp]

    A shallow embedding of the firmware: the globals and the function-local
    statics form one record, every hardware read ([millis], [digitalRead],
    [analogRead], the stepper's step timer) consumes the next sample of an
    input oracle, and every call of the display, the EEPROM and the stepper
    driver is kept in the record.  Target: ATmega328 (Arduino Uno), where
    [int] has 16 bits, [long] 32 bits and [float] is IEEE binary32. *)

From Stdlib Require Import ZArith List String Bool Lia.
From Stdlib Require Import Floats.SpecFloat.
Import ListNotations.
Local Open Scope Z_scope.

(** ** Machine arithmetic of the target *)

(** [unsigned long]: 32 bits, wraps around. *)
Definition u32 (z : Z) : Z := z mod 2 ^ 32.

(** [int]: 16 bits, two's complement (avr-gcc wraps). *)
Definition int16 (z : Z) : Z := (z + 2 ^ 15) mod 2 ^ 16 - 2 ^ 15.

(** [long]: 32 bits, two's complement. *)
Definition int32 (z : Z) : Z := (z + 2 ^ 31) mod 2 ^ 32 - 2 ^ 31.

(** Arduino core, WMath.cpp:
    [long map(long x, long in_min, long in_max, long out_min, long out_max)
       { return (x - in_min) * (out_max - out_min) / (in_max - in_min) + out_min; }]
    C++ division truncates towards zero ([Z.quot]). *)
Definition map (x in_min in_max out_min out_max : Z) : Z :=
  int32 (int32 (int32 (int32 (x - in_min) * int32 (out_max - out_min))
                 ÷ int32 (in_max - in_min)) + out_min).

(** *** binary32 *)

Definition f32_prec : Z := 24.
Definition f32_emax : Z := 128.

(** [(float) n] for an [int] n. *)
Definition float_of_int (n : Z) : spec_float :=
  binary_normalize f32_prec f32_emax n 0 false.

Definition fdiv (x y : spec_float) : spec_float :=
  SFdiv f32_prec f32_emax x y.

(** The integer part of a finite float, fraction discarded (towards zero). *)
Definition ftrunc (m : positive) (e : Z) : Z :=
  if 0 <=? e then Z.pos m * 2 ^ e else Z.pos m ÷ 2 ^ (- e).

(** The implicit conversion [float -> uint8_t] at a call.  C++ defines it
    only when the truncated value is representable in the destination;
    otherwise (also for infinities and NaN) there is no defined result. *)
Definition float_to_uint8 (f : spec_float) : option Z :=
  match f with
  | S754_zero _ => Some 0
  | S754_finite s m e =>
      let t := ftrunc m e in
      if s then (if t =? 0 then Some 0 else None)
      else if t <=? 255 then Some t else None
  | S754_infinity _ => None
  | S754_nan => None
  end.

(** ** Constants of the sketch *)

Definition CALIBRATION_ADDR : Z := 0.
Definition STEPS_PER_REVOLUTION : Z := 400.
Definition DEBOUNCE_TIME : Z := 50.
Definition LONG_PRESS_TIME : Z := 5000.
Definition FAST_PRESS_TIME : Z := 1500.

(** ** Data *)

Inductive SystemState :=
| Idle | CalibrationMenu | Calibrating | Purging | Running | Canceled.

Definition SystemState_eqb (a b : SystemState) : bool :=
  match a, b with
  | Idle, Idle | CalibrationMenu, CalibrationMenu | Calibrating, Calibrating
  | Purging, Purging | Running, Running | Canceled, Canceled => true
  | _, _ => false
  end.

(** Level of the push-button line (active low, pulled up). *)
Inductive Level := LOW | HIGH.

(** What the hardware answers at one read. *)
Record Sample := mkSample {
  ms : Z;             (* millis() *)
  pin : Level;        (* digitalRead(BUTTON_PIN) *)
  adc : Z;            (* analogRead(POTENTIOMETER_PIN) *)
  step_due : bool     (* the stepper's step interval has elapsed *)
}.

(** Calls received by the LiquidCrystal_I2C collaborator. *)
Inductive LcdCall :=
| LcdClear
| LcdSetCursor (col row : Z)
| LcdPrint (text : string)
| LcdPrintInt (n : Z)
| LcdWrite (b : Z).

(** The part of AccelStepper the sketch drives. *)
Record Stepper := mkStepper {
  maxSpeed : Z;
  speed : Z;
  currentPos : Z;
  targetPos : Z
}.

(** Globals, function-local statics and collaborators. *)
Record World := mkWorld {
  currentState : SystemState;
  previousState : SystemState;
  buttonPressStartTime : Z;
  isButtonPressed : bool;
  (* statics of handleCalibrationMenuState *)
  menu_isWaitingForButtonRelease : bool;
  menu_buttonPressStartTime : Z;
  (* statics of handlePurgingState *)
  isPurging : bool;
  purgeEndTime : Z;
  (* collaborators *)
  eeprom : Z -> Z;
  lcd : list LcdCall;            (* oldest call first *)
  stepper : Stepper;
  tick : nat                     (* hardware reads made so far *)
}.

Definition set_currentState (v : SystemState) (w : World) : World :=
  mkWorld v (previousState w) (buttonPressStartTime w) (isButtonPressed w)
    (menu_isWaitingForButtonRelease w) (menu_buttonPressStartTime w)
    (isPurging w) (purgeEndTime w) (eeprom w) (lcd w) (stepper w) (tick w).

Definition set_previousState (v : SystemState) (w : World) : World :=
  mkWorld (currentState w) v (buttonPressStartTime w) (isButtonPressed w)
    (menu_isWaitingForButtonRelease w) (menu_buttonPressStartTime w)
    (isPurging w) (purgeEndTime w) (eeprom w) (lcd w) (stepper w) (tick w).

Definition set_buttonPressStartTime (v : Z) (w : World) : World :=
  mkWorld (currentState w) (previousState w) v (isButtonPressed w)
    (menu_isWaitingForButtonRelease w) (menu_buttonPressStartTime w)
    (isPurging w) (purgeEndTime w) (eeprom w) (lcd w) (stepper w) (tick w).

Definition set_isButtonPressed (v : bool) (w : World) : World :=
  mkWorld (currentState w) (previousState w) (buttonPressStartTime w) v
    (menu_isWaitingForButtonRelease w) (menu_buttonPressStartTime w)
    (isPurging w) (purgeEndTime w) (eeprom w) (lcd w) (stepper w) (tick w).

Definition set_menu_isWaitingForButtonRelease (v : bool) (w : World) : World :=
  mkWorld (currentState w) (previousState w) (buttonPressStartTime w)
    (isButtonPressed w) v (menu_buttonPressStartTime w)
    (isPurging w) (purgeEndTime w) (eeprom w) (lcd w) (stepper w) (tick w).

Definition set_menu_buttonPressStartTime (v : Z) (w : World) : World :=
  mkWorld (currentState w) (previousState w) (buttonPressStartTime w)
    (isButtonPressed w) (menu_isWaitingForButtonRelease w) v
    (isPurging w) (purgeEndTime w) (eeprom w) (lcd w) (stepper w) (tick w).

Definition set_isPurging (v : bool) (w : World) : World :=
  mkWorld (currentState w) (previousState w) (buttonPressStartTime w)
    (isButtonPressed w) (menu_isWaitingForButtonRelease w)
    (menu_buttonPressStartTime w) v (purgeEndTime w) (eeprom w) (lcd w)
    (stepper w) (tick w).

Definition set_purgeEndTime (v : Z) (w : World) : World :=
  mkWorld (currentState w) (previousState w) (buttonPressStartTime w)
    (isButtonPressed w) (menu_isWaitingForButtonRelease w)
    (menu_buttonPressStartTime w) (isPurging w) v (eeprom w) (lcd w)
    (stepper w) (tick w).

Definition set_eeprom (v : Z -> Z) (w : World) : World :=
  mkWorld (currentState w) (previousState w) (buttonPressStartTime w)
    (isButtonPressed w) (menu_isWaitingForButtonRelease w)
    (menu_buttonPressStartTime w) (isPurging w) (purgeEndTime w) v (lcd w)
    (stepper w) (tick w).

Definition set_lcd (v : list LcdCall) (w : World) : World :=
  mkWorld (currentState w) (previousState w) (buttonPressStartTime w)
    (isButtonPressed w) (menu_isWaitingForButtonRelease w)
    (menu_buttonPressStartTime w) (isPurging w) (purgeEndTime w) (eeprom w) v
    (stepper w) (tick w).

Definition set_stepper (v : Stepper) (w : World) : World :=
  mkWorld (currentState w) (previousState w) (buttonPressStartTime w)
    (isButtonPressed w) (menu_isWaitingForButtonRelease w)
    (menu_buttonPressStartTime w) (isPurging w) (purgeEndTime w) (eeprom w)
    (lcd w) v (tick w).

Definition set_tick (v : nat) (w : World) : World :=
  mkWorld (currentState w) (previousState w) (buttonPressStartTime w)
    (isButtonPressed w) (menu_isWaitingForButtonRelease w)
    (menu_buttonPressStartTime w) (isPurging w) (purgeEndTime w) (eeprom w)
    (lcd w) (stepper w) v.

(** The sketch's initial values (EEPROM content and tick are the caller's). *)
Definition boot (rom : Z -> Z) : World :=
  mkWorld Idle Idle 0 false true 0 false 0 rom [] (mkStepper 0 0 0 0) 0%nat.

(** The band a press duration falls in, as [handleButtonPress] tests it
    (lines 231, 232 and 235). *)
Inductive PressClassification := NoPress | Fast | Long.

Definition classifyPress (pressDuration : Z) : PressClassification :=
  if DEBOUNCE_TIME <=? pressDuration then
    if LONG_PRESS_TIME <=? pressDuration then Long
    else if pressDuration <=? FAST_PRESS_TIME then Fast
    else NoPress
  else NoPress.

(** ** Outcomes of the blocking parts

    [handleCalibratingState] busy-waits twice and hands a [float] to
    [EEPROM.update]; everything else always returns. *)
Inductive Outcome (A : Type) :=
| Done (a : A) (w : World)
| Spin                               (* a busy-wait outlived the fuel *)
| NoByte (q : spec_float) (w : World).
    (* EEPROM.update was reached with a quotient that has no uint8_t value *)
Arguments Done {A} a w.
Arguments Spin {A}.
Arguments NoByte {A} q w.

Definition bind {A B} (m : Outcome A) (k : A -> World -> Outcome B) : Outcome B :=
  match m with
  | Done a w => k a w
  | Spin => Spin
  | NoByte q w => NoByte q w
  end.

Notation "x <- m ;; k" := (bind m (fun x => k))
  (at level 61, m at next level, right associativity).

Definition u8 (z : Z) : Z := z mod 2 ^ 8.
Definition u16 (z : Z) : Z := z mod 2 ^ 16.

Definition lcd_call (c : LcdCall) (w : World) : World :=
  set_lcd (lcd w ++ [c]) w.

(** [lcd.setCursor(uint8_t, uint8_t)]. *)
Definition lcd_setCursor (col row : Z) : World -> World :=
  lcd_call (LcdSetCursor (u8 col) (u8 row)).

(** [EEPROM.update(idx, val)]: writes the cell only when it differs. *)
Definition EEPROM_update (idx val : Z) (w : World) : World :=
  if eeprom w idx =? val then w
  else set_eeprom (fun a => if a =? idx then val else eeprom w a) w.

(** AccelStepper, as far as the sketch drives it: one forward move per
    calibration.  [move] is kept by its effect on the target.  The
    library's [move] also recomputes the speed profile and, from rest,
    points the stepping direction at the target; for the positive step
    counts the sketch passes that is the direction [setSpeed(400)] has
    just set.  A move to a target behind the position is outside this
    model. *)
Definition stepper_setMaxSpeed (s : Z) (w : World) : World :=
  let m := stepper w in
  set_stepper (mkStepper (Z.abs s) (speed m) (currentPos m) (targetPos m)) w.

Definition stepper_setSpeed (s : Z) (w : World) : World :=
  let m := stepper w in
  let s' := Z.max (- maxSpeed m) (Z.min s (maxSpeed m)) in
  set_stepper (mkStepper (maxSpeed m) s' (currentPos m) (targetPos m)) w.

Definition stepper_move (relative : Z) (w : World) : World :=
  let m := stepper w in
  set_stepper (mkStepper (maxSpeed m) (speed m) (currentPos m)
                 (int32 (currentPos m + relative))) w.

Definition stepper_distanceToGo (w : World) : Z :=
  int32 (targetPos (stepper w) - currentPos (stepper w)).

Section Firmware.

(** The hardware: sample [n] answers the [n]-th read. *)
Variable hw : nat -> Sample.

Definition bump (w : World) : World := set_tick (S (tick w)) w.

Definition millis (w : World) : Z * World :=
  (u32 (ms (hw (tick w))), bump w).

Definition digitalRead (w : World) : Level * World :=
  (pin (hw (tick w)), bump w).

Definition analogRead (w : World) : Z * World :=
  (adc (hw (tick w)), bump w).

(** [delay] only lets time pass; time is the oracle's. *)
Definition delay (_ : Z) (w : World) : World := w.

(** [stepper.runSpeed()]: one step when the step interval has elapsed, in
    the direction of the speed (which, after the forward move of the
    sketch, is the library's stepping direction). *)
Definition stepper_runSpeed (w : World) : World :=
  let m := stepper w in
  let w' := bump w in
  if (speed m =? 0) || negb (step_due (hw (tick w))) then w'
  else
    let p := if 0 <? speed m then currentPos m + 1 else currentPos m - 1 in
    set_stepper (mkStepper (maxSpeed m) (speed m) (int32 p) (targetPos m)) w'.

Definition centerTextOnLCD (text : string) (row : Z) (w : World) : World :=
  let startPos := int16 (u16 (16 - Z.of_nat (String.length text)) / 2) in
  lcd_call (LcdPrint text) (lcd_setCursor startPos row w).

Fixpoint runMotorLoop (fuel : nat) (w : World) : Outcome unit :=
  if stepper_distanceToGo w =? 0 then Done tt w
  else match fuel with
       | O => Spin
       | S fuel' => runMotorLoop fuel' (stepper_runSpeed w)
       end.

Definition runCalibrationMotor (fuel : nat) (totalRevolutions : Z)
    (w : World) : Outcome unit :=
  let totalSteps := int16 (totalRevolutions * STEPS_PER_REVOLUTION) in
  let w := stepper_setMaxSpeed 400 w in
  let w := stepper_setSpeed 400 w in
  let w := stepper_move totalSteps w in
  let w := centerTextOnLCD "CALIBRATION" 0 w in
  runMotorLoop fuel w.

Definition displayCalibrationProgress (progressPercent : Z) (w : World) : World :=
  let totalBlocks := 16 in
  let filledBlocks := int16 (progressPercent * totalBlocks) ÷ 100 in
  let w := lcd_setCursor 0 1 w in
  (* for (i = 0; i < filledBlocks; ++i) lcd.write((byte)255); *)
  let w := set_lcd (lcd w ++ repeat (LcdWrite 255) (Z.to_nat filledBlocks)) w in
  (* for (i = filledBlocks; i < totalBlocks; ++i) lcd.write('_'); *)
  set_lcd (lcd w ++ repeat (LcdWrite 95)
             (Z.to_nat (totalBlocks - filledBlocks))) w.

Fixpoint queryLoop (fuel : nat) (w : World) : Outcome Z :=
  match fuel with
  | O => Spin
  | S fuel' =>
      let (raw, w) := analogRead w in
      let measuredLiquid := int16 (map raw 0 1023 1 20) in
      let w := lcd_setCursor 0 1 w in
      let w := lcd_call (LcdPrintInt measuredLiquid) w in
      let w := lcd_call (LcdPrint " ml   ") w in
      let (level, w) := digitalRead w in
      match level with
      | LOW => Done measuredLiquid (delay 50 w)
      | HIGH => queryLoop fuel' w
      end
  end.

Definition queryForMeasuredLiquid (fuel : nat) (w : World) : Outcome Z :=
  let w := lcd_call LcdClear w in
  let w := lcd_setCursor 0 0 w in
  let w := lcd_call (LcdPrint "Set liquid vol.") w in
  queryLoop fuel w.

Definition storeCalibrationValue (measuredLiquid totalRevolutions : Z)
    (w : World) : Outcome unit :=
  let revolutionsPerML :=
    fdiv (float_of_int totalRevolutions) (float_of_int measuredLiquid) in
  match float_to_uint8 revolutionsPerML with
  | Some b => Done tt (EEPROM_update CALIBRATION_ADDR b w)
  | None => NoByte revolutionsPerML w
  end.

Definition handleIdleState (w : World) : World :=
  let idleText := "Idle"%string in
  let startPos := int16 (u16 (16 - Z.of_nat (String.length idleText)) / 2) in
  let w := lcd_setCursor startPos 0 w in
  let w := lcd_call (LcdPrint idleText) w in
  let w := lcd_setCursor 0 1 w in
  let w := lcd_call (LcdPrint "Cal:") w in
  lcd_call (LcdPrint "0") w.

Definition handleCalibrationMenuState (w : World) : World :=
  let w :=
    if menu_isWaitingForButtonRelease w then
      let (level, w) := digitalRead w in
      match level with
      | HIGH => set_menu_isWaitingForButtonRelease false w
      | LOW => w
      end
    else w in
  let w := centerTextOnLCD "Press: Calib" 0 w in
  let w := centerTextOnLCD "Hold: Purge" 1 w in
  if negb (menu_isWaitingForButtonRelease w) then
    let (level, w) := digitalRead w in
    match level with
    | LOW =>
        if menu_buttonPressStartTime w =? 0 then
          let (now, w) := millis w in set_menu_buttonPressStartTime now w
        else w
    | HIGH =>
        if 0 <? menu_buttonPressStartTime w then
          let (now, w) := millis w in
          let pressDuration := u32 (now - menu_buttonPressStartTime w) in
          let w := set_menu_buttonPressStartTime 0 w in
          if (50 <=? pressDuration) && (pressDuration <? 2000) then
            set_currentState Calibrating w
          else if 2000 <=? pressDuration then
            set_currentState Purging w
          else w
        else w
    end
  else w.

Definition handleCalibratingState (fuel : nat) (w : World) : Outcome unit :=
  let totalRevolutions := 10 in
  _ <- runCalibrationMotor fuel totalRevolutions w ;;
  fun w =>
  measuredLiquid <- queryForMeasuredLiquid fuel w ;;
  fun w =>
  _ <- storeCalibrationValue measuredLiquid totalRevolutions w ;;
  fun w => Done tt (set_currentState Idle w).

Definition handlePurgingState (w : World) : World :=
  let purgeDelay := 2000 in
  if negb (isPurging w) then
    let w := centerTextOnLCD "Hold purge" 0 w in
    let w := lcd_setCursor 0 1 w in
    let w := lcd_call (LcdPrint "                ") w in
    let (level, w) := digitalRead w in
    match level with
    | LOW =>
        let w := delay 50 w in
        let w := set_isPurging true w in
        let w := centerTextOnLCD "Purging.." 0 w in
        set_purgeEndTime 0 w
    | HIGH => w
    end
  else
    let (level, w) := digitalRead w in
    match level with
    | HIGH =>
        if purgeEndTime w =? 0 then
          let (now, w) := millis w in set_purgeEndTime now w
        else
          let (now, w) := millis w in
          if purgeDelay <? u32 (now - purgeEndTime w) then
            let w := set_isPurging false w in
            let w := set_currentState Idle w in
            centerTextOnLCD "Idle" 0 w
          else w
    | LOW => set_purgeEndTime 0 w
    end.

Definition handleRunningState (w : World) : World :=
  let runText := "Run"%string in
  let startPos := int16 (u16 (16 - Z.of_nat (String.length runText)) / 2) in
  let w := lcd_setCursor startPos 0 w in
  lcd_call (LcdPrint runText) w.

Definition handleCanceledState (w : World) : World := w.

Definition handleButtonPress (w : World) : World :=
  if isButtonPressed w then
    let (now, w) := millis w in
    let pressDuration := u32 (now - buttonPressStartTime w) in
    let w :=
      if DEBOUNCE_TIME <=? pressDuration then
        if LONG_PRESS_TIME <=? pressDuration then
          set_currentState CalibrationMenu w
        else if pressDuration <=? FAST_PRESS_TIME then
          match currentState w with
          | Idle => set_currentState Running w
          | Running => set_currentState Idle w
          | _ => w
          end
        else w
      else w in
    set_isButtonPressed false w
  else w.

Definition buttonPressISR (w : World) : World :=
  let (level, w) := digitalRead w in
  match level with
  | LOW =>
      if negb (isButtonPressed w) then
        let (now, w) := millis w in
        let w := set_buttonPressStartTime now w in
        set_isButtonPressed true w
      else w
  | HIGH =>
      if isButtonPressed w then handleButtonPress w else w
  end.

Definition loop (fuel : nat) (w : World) : Outcome unit :=
  let w :=
    if negb (SystemState_eqb (currentState w) (previousState w)) then
      let w := lcd_call LcdClear w in
      set_previousState (currentState w) w
    else w in
  match currentState w with
  | Idle => Done tt (handleIdleState w)
  | CalibrationMenu => Done tt (handleCalibrationMenuState w)
  | Calibrating => handleCalibratingState fuel w
  | Purging => Done tt (handlePurgingState w)
  | Running => Done tt (handleRunningState w)
  | Canceled => Done tt (handleCanceledState w)
  end.

End Firmware.

(** ** Derived notions used by the statements *)

(** [millis() - buttonPressStartTime] as line 229 computes it. *)
Definition pressDuration (hw : nat -> Sample) (w : World) : Z :=
  u32 (fst (millis hw w) - buttonPressStartTime w).

(** What each band does to the machine (lines 232-243). *)
Definition pressEffect (c : PressClassification) (w : World) : World :=
  match c with
  | Long => set_currentState CalibrationMenu w
  | Fast =>
      match currentState w with
      | Idle => set_currentState Running w
      | Running => set_currentState Idle w
      | _ => w
      end
  | NoPress => w
  end.

(** One step of the whole system: an iteration of [loop] or one run of the
    pin-change interrupt handler. *)
Inductive Event := LoopIteration (fuel : nat) | PinChange.

Definition step (hw : nat -> Sample) (e : Event) (w : World) : Outcome unit :=
  match e with
  | LoopIteration fuel => loop hw fuel w
  | PinChange => Done tt (buttonPressISR hw w)
  end.

(** ** Concrete hardware and machine states for the examples *)

(** Hardware answering every read with the same sample. *)
Definition steady (s : Sample) : nat -> Sample := fun _ => s.

(** The button is up and the clock reads [t]. *)
Definition released_at (t : Z) : nat -> Sample :=
  steady (mkSample t HIGH 0 false).

(** The machine in state [st] with a press under way since [t0]. *)
Definition pressed_since (t0 : Z) (st : SystemState) : World :=
  set_isButtonPressed true
    (set_buttonPressStartTime t0 (set_currentState st (boot (fun _ => 255)))).

(** The operator keeps the button down with the potentiometer at [raw];
    the stepper's timer is due at every poll. *)
Definition confirming (raw : Z) : nat -> Sample :=
  steady (mkSample 0 LOW raw true).

(** The machine in state [st] while the display still shows [prev]. *)
Definition entering (st prev : SystemState) : World :=
  set_previousState prev (set_currentState st (boot (fun _ => 255))).

(** Number of [lcd.clear()] calls in a display log. *)
Definition isClear (c : LcdCall) : bool :=
  match c with LcdClear => true | _ => false end.

Definition clears (l : list LcdCall) : nat := List.length (filter isClear l).

(** [w'] is [w] after the display received further calls, [n] of them
    clears, with [previousState] left alone. *)
Definition Sends (n : nat) (w w' : World) : Prop :=
  previousState w' = previousState w /\
  exists ext, lcd w' = lcd w ++ ext /\ clears ext = n.

(** [n] successive invocations of [handlePurgingState], as [loop] makes
    them while the machine stays in Purging. *)
Fixpoint purgeRun (hw : nat -> Sample) (n : nat) (w : World) : World :=
  match n with
  | O => w
  | S n' => handlePurgingState hw (purgeRun hw n' w)
  end.

(** The button level invocation [i] reads, and the clock value it reads
    right after (when it is purging and finds the button up). *)
Definition pinSeen (hw : nat -> Sample) (w0 : World) (i : nat) : Level :=
  pin (hw (tick (purgeRun hw i w0))).

Definition clockSeen (hw : nat -> Sample) (w0 : World) (i : nat) : Z :=
  u32 (ms (hw (S (tick (purgeRun hw i w0))))).

(** Hardware answering from a script, then with [d] for ever. *)
Definition scripted (l : list Sample) (d : Sample) : nat -> Sample :=
  fun n => nth n l d.

(** Button down, then up at 1000 ms and still up at 3500 ms. *)
Definition press_then_release : nat -> Sample :=
  scripted [mkSample 0 LOW 0 false;
            mkSample 900 HIGH 0 false; mkSample 1000 HIGH 0 false;
            mkSample 3400 HIGH 0 false; mkSample 3500 HIGH 0 false]
           (mkSample 4000 HIGH 0 false).

(** ** Notions for the properties of the remaining code *)

(** A run of the system over a list of events, stopping at the first one
    that does not return. *)
Fixpoint runEvents (hw : nat -> Sample) (es : list Event) (w : World)
    : Outcome unit :=
  match es with
  | [] => Done tt w
  | e :: es' => bind (step hw e w) (fun _ w' => runEvents hw es' w')
  end.

(** The changes of [currentState] a single step can make. *)
Definition allowed (a b : SystemState) : bool :=
  match a, b with
  | Idle, (Idle | Running | CalibrationMenu) => true
  | CalibrationMenu, (CalibrationMenu | Calibrating | Purging) => true
  | Calibrating, (Calibrating | Idle | CalibrationMenu) => true
  | Purging, (Purging | Idle | CalibrationMenu) => true
  | Running, (Running | Idle | CalibrationMenu) => true
  | Canceled, (Canceled | CalibrationMenu) => true
  | _, _ => false
  end.

(** The two halves of [handleCalibrationMenuState]: the release gate
    (lines 122-124) and the press detector (lines 133-152); the menu text
    is drawn in between. *)
Definition menu_gate (hw : nat -> Sample) (w : World) : World :=
  if menu_isWaitingForButtonRelease w then
    let (level, w) := digitalRead hw w in
    match level with
    | HIGH => set_menu_isWaitingForButtonRelease false w
    | LOW => w
    end
  else w.

Definition menu_text (w : World) : World :=
  centerTextOnLCD "Hold: Purge" 1 (centerTextOnLCD "Press: Calib" 0 w).

Definition menu_detect (hw : nat -> Sample) (w : World) : World :=
  if negb (menu_isWaitingForButtonRelease w) then
    let (level, w) := digitalRead hw w in
    match level with
    | LOW =>
        if menu_buttonPressStartTime w =? 0 then
          let (now, w) := millis hw w in set_menu_buttonPressStartTime now w
        else w
    | HIGH =>
        if 0 <? menu_buttonPressStartTime w then
          let (now, w) := millis hw w in
          let pressDuration := u32 (now - menu_buttonPressStartTime w) in
          let w := set_menu_buttonPressStartTime 0 w in
          if (50 <=? pressDuration) && (pressDuration <? 2000) then
            set_currentState Calibrating w
          else if 2000 <=? pressDuration then
            set_currentState Purging w
          else w
        else w
    end
  else w.

(** The state the menu's press detector selects for a duration. *)
Definition menuChoice (pressDuration : Z) (current : SystemState)
    : SystemState :=
  if (50 <=? pressDuration) && (pressDuration <? 2000) then Calibrating
  else if 2000 <=? pressDuration then Purging
  else current.

(** [n] successive invocations of [handleCalibrationMenuState]. *)
Fixpoint menuRun (hw : nat -> Sample) (n : nat) (w : World) : World :=
  match n with
  | O => w
  | S n' => menuRun hw n' (handleCalibrationMenuState hw w)
  end.

(** The variables each part of the sketch owns. *)
Definition button_vars (w : World) : Z * bool :=
  (buttonPressStartTime w, isButtonPressed w).

Definition menu_vars (w : World) : bool * Z :=
  (menu_isWaitingForButtonRelease w, menu_buttonPressStartTime w).

Definition purge_vars (w : World) : bool * Z :=
  (isPurging w, purgeEndTime w).

(** The integers from [lo], [len] of them. *)
Definition zrange (lo : Z) (len : nat) : list Z :=
  List.map (fun i => lo + Z.of_nat i) (seq 0 len).

(** Does [storeCalibrationValue]'s quotient convert to the byte
    [n / m], or to none when that exceeds 255? *)
Definition quotient_ok (n m : Z) : bool :=
  match float_to_uint8 (fdiv (float_of_int n) (float_of_int m)) with
  | Some b => (b =? n / m) && (n / m <=? 255)
  | None => 255 <? n / m
  end.

(** Hardware for a press in the menu: button down at 1000 ms, held for two
    polls, up at 1700 ms. *)
Definition menu_short_press : nat -> Sample :=
  scripted [mkSample 0 LOW 0 false; mkSample 1000 LOW 0 false;
            mkSample 0 LOW 0 false; mkSample 0 LOW 0 false;
            mkSample 0 HIGH 0 false; mkSample 1700 HIGH 0 false]
           (mkSample 9000 HIGH 0 false).

(** The machine in the menu, past the release gate. *)
Definition in_menu : World :=
  set_menu_isWaitingForButtonRelease false
    (entering CalibrationMenu CalibrationMenu).

(** Button down at 1000 ms, up again at [t]. *)
Definition press_release (t : Z) : nat -> Sample :=
  scripted [mkSample 0 LOW 0 false; mkSample 1000 LOW 0 false;
            mkSample 0 HIGH 0 false; mkSample t HIGH 0 false]
           (mkSample t HIGH 0 false).

(** What the menu handler works on, and what lies outside each handler. *)
Definition menu_ctl (w : World) : SystemState * bool * Z * nat :=
  (currentState w, menu_isWaitingForButtonRelease w,
   menu_buttonPressStartTime w, tick w).

Definition outside_menu (w : World) :=
  (previousState w, button_vars w, purge_vars w, eeprom w, stepper w).

Definition outside_purge (w : World) :=
  (previousState w, button_vars w, menu_vars w, eeprom w, stepper w).

Definition outside_display (w : World) :=
  (currentState w, previousState w, button_vars w, menu_vars w,
   purge_vars w, eeprom w, stepper w, tick w).

Definition firmware_vars (w : World) :=
  (previousState w, button_vars w, menu_vars w, purge_vars w).

(** Hardware during a calibration with the button up until the poll that
    follows the motor run: the step timer is always due, the potentiometer
    reads [raw], the button is down from read [from] on. *)
Definition calibration_bench (raw : Z) (from : nat) : nat -> Sample :=
  fun n => mkSample 0 (if (from <=? n)%nat then LOW else HIGH) raw true.

(** Two clicks of 200 ms each, one second apart. *)
Definition steady_clicks : nat -> Sample :=
  scripted [mkSample 0 LOW 0 false; mkSample 1000 LOW 0 false;
            mkSample 0 HIGH 0 false; mkSample 1200 HIGH 0 false;
            mkSample 0 LOW 0 false; mkSample 2200 LOW 0 false;
            mkSample 0 HIGH 0 false; mkSample 2400 HIGH 0 false]
           (mkSample 3000 HIGH 0 false).

(** A purge that is left through the calibration menu and entered again.
    The button is held from 12000 to 18000 ms while purging; the release
    is seen by the purge handler, which had been dispatched already, and
    by the interrupt handler.  In the menu the button is then held from
    19000 to 21500 ms, which selects Purging again.  One sample per
    hardware read, in the order the reads are made. *)
Definition purge_reentry_hw : nat -> Sample :=
  scripted
    [ (* press 1000..6500 in Idle: menu *)
      mkSample 1000 LOW 0 false;  mkSample 1000 LOW 0 false;
      mkSample 6500 HIGH 0 false; mkSample 6500 HIGH 0 false;
      (* menu: gate opens *)
      mkSample 6501 HIGH 0 false; mkSample 6501 HIGH 0 false;
      (* press 8000..10500 in the menu: purge *)
      mkSample 8000 LOW 0 false;  mkSample 8000 LOW 0 false;
      mkSample 8001 LOW 0 false;  mkSample 8001 LOW 0 false;
      mkSample 10500 HIGH 0 false; mkSample 10500 HIGH 0 false;
      mkSample 10501 HIGH 0 false; mkSample 10501 HIGH 0 false;
      (* purging: waits, then the button goes down at 12000 *)
      mkSample 11000 HIGH 0 false;
      mkSample 12000 LOW 0 false; mkSample 12000 LOW 0 false;
      mkSample 12001 LOW 0 false;
      mkSample 15000 LOW 0 false;
      (* released at 18000: the purge handler, then the interrupt *)
      mkSample 18000 HIGH 0 false; mkSample 18000 HIGH 0 false;
      mkSample 18000 HIGH 0 false; mkSample 18000 HIGH 0 false;
      (* menu again *)
      mkSample 18001 HIGH 0 false;
      (* press 19000..21500 in the menu: purge again *)
      mkSample 19000 LOW 0 false; mkSample 19000 LOW 0 false;
      mkSample 19001 LOW 0 false; mkSample 19001 LOW 0 false;
      mkSample 21500 HIGH 0 false; mkSample 21500 HIGH 0 false;
      mkSample 21500 HIGH 0 false; mkSample 21500 HIGH 0 false;
      (* the purge handler, 1 ms after the release *)
      mkSample 21501 HIGH 0 false; mkSample 21501 HIGH 0 false ]
    (mkSample 21501 HIGH 0 false).

Definition purge_reentry_events : list Event :=
  [ PinChange; PinChange; LoopIteration 0;
    PinChange; LoopIteration 0; PinChange; LoopIteration 0;
    LoopIteration 0; PinChange; LoopIteration 0; LoopIteration 0;
    LoopIteration 0; PinChange;
    LoopIteration 0; PinChange; LoopIteration 0; PinChange; LoopIteration 0 ].

(** * Properties *)

(** ** The primary classifier *)

Lemma u32_range z : 0 <= u32 z < 2 ^ 32.
Proof. unfold u32. apply Z.mod_pos_bound. lia. Qed.

Lemma u32_small z : 0 <= z < 2 ^ 32 -> u32 z = z.
Proof. intros H. unfold u32. apply Z.mod_small. exact H. Qed.

(** [handleButtonPress] is the band's effect followed by the flag reset. *)
Lemma handleButtonPress_by_band hw w :
  isButtonPressed w = true ->
  handleButtonPress hw w =
  set_isButtonPressed false
    (pressEffect (classifyPress (pressDuration hw w)) (bump w)).
Proof.
  intros Hp. unfold handleButtonPress, pressDuration, classifyPress.
  rewrite Hp. cbn [millis fst].
  change (buttonPressStartTime (bump w)) with (buttonPressStartTime w).
  destruct (DEBOUNCE_TIME <=? _); [| reflexivity].
  destruct (LONG_PRESS_TIME <=? _); [reflexivity |].
  destruct (_ <=? FAST_PRESS_TIME); reflexivity.
Qed.

Lemma handleButtonPress_idle_flag hw w :
  isButtonPressed w = false -> handleButtonPress hw w = w.
Proof. intros Hp. unfold handleButtonPress. rewrite Hp. reflexivity. Qed.

Lemma classifyPress_spec d :
  (d < DEBOUNCE_TIME -> classifyPress d = NoPress) /\
  (DEBOUNCE_TIME <= d <= FAST_PRESS_TIME -> classifyPress d = Fast) /\
  (LONG_PRESS_TIME <= d -> classifyPress d = Long) /\
  (FAST_PRESS_TIME < d < LONG_PRESS_TIME -> classifyPress d = NoPress).
Proof.
  unfold classifyPress, DEBOUNCE_TIME, FAST_PRESS_TIME, LONG_PRESS_TIME.
  repeat split; intros H;
    destruct (50 <=? d) eqn:E1; destruct (5000 <=? d) eqn:E2;
    destruct (d <=? 1500) eqn:E3; try reflexivity; lia.
Qed.

(** C1.  A press-release cycle reaching [handleButtonPress] (the flag
    [isButtonPressed] is set) with duration [d = millis() - buttonPressStartTime]:
    below 50 ms it is in no band and nothing but the flag reset and the
    consumed clock read changes; from 50 to 1500 ms it is in the Fast band
    (Idle and Running toggle, other states stay); from 5000 ms on it is in
    the Long band and the state becomes CalibrationMenu; strictly between
    1500 and 5000 ms it is in no band and again only the flag is reset. *)
Theorem C1_press_bands hw w (Hp : isButtonPressed w = true) :
  let d := pressDuration hw w in
  let w' := handleButtonPress hw w in
  (d < DEBOUNCE_TIME ->
     classifyPress d = NoPress /\
     w' = set_isButtonPressed false (bump w) /\
     currentState w' = currentState w) /\
  (DEBOUNCE_TIME <= d <= FAST_PRESS_TIME ->
     classifyPress d = Fast /\
     currentState w' = match currentState w with
                       | Idle => Running
                       | Running => Idle
                       | s => s
                       end) /\
  (LONG_PRESS_TIME <= d ->
     classifyPress d = Long /\ currentState w' = CalibrationMenu) /\
  (FAST_PRESS_TIME < d < LONG_PRESS_TIME ->
     classifyPress d = NoPress /\
     w' = set_isButtonPressed false (bump w) /\
     currentState w' = currentState w).
Proof.
  intros d w'. subst w'. rewrite (handleButtonPress_by_band hw w Hp). fold d.
  destruct (classifyPress_spec d) as (H1 & H2 & H3 & H4).
  split; [| split; [| split]]; intros H.
  - rewrite (H1 H). repeat split.
  - rewrite (H2 H). split; [reflexivity |].
    destruct w as [[] ? ? ? ? ? ? ? ? ? ? ?]; reflexivity.
  - rewrite (H3 H). split; reflexivity.
  - rewrite (H4 H). repeat split.
Qed.

Lemma C1_press_bands_witness :
  let w := pressed_since 1000 Idle in
  handleButtonPress (released_at 1010) w = set_isButtonPressed false (bump w) /\
  currentState (handleButtonPress (released_at 1200) w) = Running /\
  currentState (handleButtonPress (released_at 7000) w) = CalibrationMenu /\
  currentState (handleButtonPress (released_at 3000) w) = Idle.
Proof.
  intros w.
  split; [| split; [| split]].
  - apply (proj1 (C1_press_bands (released_at 1010) w eq_refl)).
    vm_compute. reflexivity.
  - apply (proj1 (proj2 (C1_press_bands (released_at 1200) w eq_refl))).
    vm_compute. split; discriminate.
  - apply (proj1 (proj2 (proj2 (C1_press_bands (released_at 7000) w eq_refl)))).
    vm_compute. discriminate.
  - apply (proj2 (proj2 (proj2 (C1_press_bands (released_at 3000) w eq_refl)))).
    vm_compute. split; reflexivity.
Defined.

(** C10.  Whatever the current state, a press that [handleButtonPress]
    measures at 5000 ms or more puts the machine in CalibrationMenu; the
    branch does not look at [currentState].  The same holds when the press
    arrives through [buttonPressISR] on the release edge. *)
Theorem C10_long_press_any_state hw w (Hp : isButtonPressed w = true) :
  (LONG_PRESS_TIME <= pressDuration hw w ->
   currentState (handleButtonPress hw w) = CalibrationMenu) /\
  (pin (hw (tick w)) = HIGH ->
   LONG_PRESS_TIME <= pressDuration hw (bump w) ->
   currentState (buttonPressISR hw w) = CalibrationMenu).
Proof.
  assert (Hlong : forall v, isButtonPressed v = true ->
            LONG_PRESS_TIME <= pressDuration hw v ->
            currentState (handleButtonPress hw v) = CalibrationMenu).
  { intros v Hv Hd. rewrite (handleButtonPress_by_band hw v Hv).
    rewrite (proj1 (proj2 (proj2 (classifyPress_spec _))) Hd). reflexivity. }
  split.
  - apply Hlong. exact Hp.
  - intros Hpin Hd. unfold buttonPressISR. cbn [digitalRead].
    rewrite Hpin.
    change (isButtonPressed (bump w)) with (isButtonPressed w). rewrite Hp.
    apply Hlong; [exact Hp | exact Hd].
Qed.

Lemma C10_long_press_any_state_witness :
  currentState (handleButtonPress (released_at 7000) (pressed_since 1000 Running))
    = CalibrationMenu /\
  currentState (buttonPressISR (released_at 7000) (pressed_since 1000 Purging))
    = CalibrationMenu.
Proof.
  split.
  - apply (proj1 (C10_long_press_any_state (released_at 7000)
                    (pressed_since 1000 Running) eq_refl)).
    vm_compute. discriminate.
  - apply (proj2 (C10_long_press_any_state (released_at 7000)
                    (pressed_since 1000 Purging) eq_refl)).
    + reflexivity.
    + vm_compute. discriminate.
Defined.

(** ** Who leaves Idle *)

Lemma loop_in_Idle hw fuel w :
  currentState w = Idle ->
  exists w', loop hw fuel w = Done tt w' /\ currentState w' = Idle.
Proof.
  intros HI. unfold loop.
  destruct (negb (SystemState_eqb (currentState w) (previousState w)));
    cbn [currentState set_previousState lcd_call set_lcd]; rewrite HI;
    eexists; (split; [reflexivity | cbn; assumption || reflexivity]).
Qed.

(** The interrupt handler changes [currentState] only through
    [handleButtonPress], on a release edge with a press under way. *)
Lemma buttonPressISR_cases hw w :
  (pin (hw (tick w)) = HIGH /\ isButtonPressed w = true /\
   buttonPressISR hw w = handleButtonPress hw (bump w)) \/
  currentState (buttonPressISR hw w) = currentState w.
Proof.
  unfold buttonPressISR. cbn [digitalRead].
  destruct (pin (hw (tick w))) eqn:Hpin.
  - right. change (isButtonPressed (bump w)) with (isButtonPressed w).
    destruct (isButtonPressed w); reflexivity.
  - change (isButtonPressed (bump w)) with (isButtonPressed w).
    destruct (isButtonPressed w) eqn:Hp.
    + left. auto.
    + right. reflexivity.
Qed.

(** C5.  From Idle, a step of the system (a [loop] iteration or a run of
    the interrupt handler) ends in CalibrationMenu only if it is the
    interrupt handler on a release edge, with a press under way whose
    duration is in the Long band; it ends in Running only if it is the
    interrupt handler on a release edge with a press in the Fast band. *)
Theorem C5_leaving_Idle hw e w w'
    (HI : currentState w = Idle) (Hs : step hw e w = Done tt w') :
  (currentState w' = CalibrationMenu ->
     e = PinChange /\ pin (hw (tick w)) = HIGH /\ isButtonPressed w = true /\
     classifyPress (pressDuration hw (bump w)) = Long) /\
  (currentState w' = Running ->
     e = PinChange /\ pin (hw (tick w)) = HIGH /\ isButtonPressed w = true /\
     classifyPress (pressDuration hw (bump w)) = Fast).
Proof.
  destruct e as [fuel |]; cbn [step] in Hs.
  - destruct (loop_in_Idle hw fuel w HI) as (w1 & Hl & H1).
    rewrite Hl in Hs. injection Hs as <-.
    split; intros H; rewrite H1 in H; discriminate.
  - injection Hs as <-.
    destruct (buttonPressISR_cases hw w) as [(Hpin & Hp & Heq) | Hsame].
    + rewrite Heq, (handleButtonPress_by_band hw (bump w) Hp).
      destruct (classifyPress (pressDuration hw (bump w))) eqn:Hc;
        cbn; try rewrite HI; cbn; split; intros H;
        first [discriminate H | repeat split; assumption].
    + rewrite Hsame, HI. split; intros H; discriminate H.
Qed.

Lemma C5_leaving_Idle_witness :
  classifyPress (pressDuration (released_at 7000)
                   (bump (pressed_since 1000 Idle))) = Long /\
  classifyPress (pressDuration (released_at 1200)
                   (bump (pressed_since 1000 Idle))) = Fast.
Proof.
  split.
  - apply (proj1 (C5_leaving_Idle (released_at 7000) PinChange
                    (pressed_since 1000 Idle) _ eq_refl eq_refl)).
    vm_compute. reflexivity.
  - apply (proj2 (C5_leaving_Idle (released_at 1200) PinChange
                    (pressed_since 1000 Idle) _ eq_refl eq_refl)).
    vm_compute. reflexivity.
Defined.

(** ** The progress bar *)

Lemma int16_small z : -32768 <= z < 32768 -> int16 z = z.
Proof.
  intros H. unfold int16.
  change (2 ^ 15) with 32768. change (2 ^ 16) with 65536.
  rewrite Z.mod_small; lia.
Qed.

Lemma displayCalibrationProgress_lcd p w :
  lcd (displayCalibrationProgress p w) =
  lcd w ++ LcdSetCursor 0 1
        :: repeat (LcdWrite 255) (Z.to_nat (int16 (p * 16) ÷ 100))
        ++ repeat (LcdWrite 95) (Z.to_nat (16 - int16 (p * 16) ÷ 100)).
Proof.
  unfold displayCalibrationProgress, lcd_setCursor, lcd_call. cbn [lcd set_lcd].
  rewrite <- !app_assoc. reflexivity.
Qed.

(** C7.  [displayCalibrationProgress] writes, after placing the cursor on
    the second row, [floor (p * 16 / 100)] filled cells (byte 255) followed
    by unfilled cells ('_') up to 16, for every percentage 0..100; at 50
    that is 8 and 8, at 0 it is 0 and 16, at 100 it is 16 and 0. *)
Theorem C7_progress_bar w :
  (forall p, 0 <= p <= 100 ->
     lcd (displayCalibrationProgress p w) =
     lcd w ++ LcdSetCursor 0 1
           :: repeat (LcdWrite 255) (Z.to_nat (p * 16 / 100))
           ++ repeat (LcdWrite 95) (16 - Z.to_nat (p * 16 / 100)) /\
     (Z.to_nat (p * 16 / 100) <= 16)%nat) /\
  lcd (displayCalibrationProgress 50 w) =
    lcd w ++ LcdSetCursor 0 1
          :: repeat (LcdWrite 255) 8 ++ repeat (LcdWrite 95) 8 /\
  lcd (displayCalibrationProgress 0 w) =
    lcd w ++ LcdSetCursor 0 1
          :: repeat (LcdWrite 255) 0 ++ repeat (LcdWrite 95) 16 /\
  lcd (displayCalibrationProgress 100 w) =
    lcd w ++ LcdSetCursor 0 1
          :: repeat (LcdWrite 255) 16 ++ repeat (LcdWrite 95) 0.
Proof.
  split; [| repeat split; apply displayCalibrationProgress_lcd].
  intros p Hp. rewrite displayCalibrationProgress_lcd.
  rewrite int16_small by lia.
  rewrite Z.quot_div_nonneg by lia.
  assert (Hq : 0 <= p * 16 / 100 <= 16).
  { split; [apply Z.div_pos; lia |].
    apply Z.div_le_upper_bound; lia. }
  split; [| lia].
  do 4 f_equal. lia.
Qed.

Lemma C7_progress_bar_witness :
  lcd (displayCalibrationProgress 37 (boot (fun _ => 255))) =
  LcdSetCursor 0 1 :: repeat (LcdWrite 255) 5 ++ repeat (LcdWrite 95) 11.
Proof.
  apply (proj1 (proj1 (C7_progress_bar (boot (fun _ => 255))) 37
                  ltac:(lia))).
Defined.

(** ** The Idle screen *)

(** C8 (the code departs from the claim).  [handleIdleState] prints "Idle"
    centred on the first row and, on the second, "Cal:" followed by the
    literal "0": what it sends to the display does not depend on the
    EEPROM, which it never reads.  With 2 stored at the calibration address
    the screen still shows "Cal:0". *)
Theorem C8_idle_prints_literal_zero :
  (forall w,
     lcd (handleIdleState w) =
     lcd w ++ [LcdSetCursor 6 0; LcdPrint "Idle"; LcdSetCursor 0 1;
               LcdPrint "Cal:"; LcdPrint "0"]) /\
  (let w := boot (fun a => if a =? CALIBRATION_ADDR then 2 else 255) in
   eeprom w CALIBRATION_ADDR = 2 /\
   lcd (handleIdleState w) =
     [LcdSetCursor 6 0; LcdPrint "Idle"; LcdSetCursor 0 1;
      LcdPrint "Cal:"; LcdPrint "0"]).
Proof.
  split.
  - intros w. unfold handleIdleState, lcd_setCursor, lcd_call.
    cbn [lcd set_lcd]. rewrite <- !app_assoc. reflexivity.
  - split; reflexivity.
Qed.

(** ** Calibration *)

Lemma int32_small z : -2147483648 <= z < 2147483648 -> int32 z = z.
Proof.
  intros H. unfold int32.
  change (2 ^ 31) with 2147483648. change (2 ^ 32) with 4294967296.
  rewrite Z.mod_small; lia.
Qed.

(** On a 10-bit reading [map] is [x * 19 / 1023 + 1]. *)
Lemma map_reading x :
  0 <= x <= 1023 -> int16 (map x 0 1023 1 20) = x * 19 / 1023 + 1.
Proof.
  intros Hx. unfold map.
  assert (Hq : 0 <= x * 19 / 1023 <= 19).
  { split; [apply Z.div_pos; lia |].
    apply Z.div_le_upper_bound; lia. }
  change (20 - 1) with 19. change (1023 - 0) with 1023. rewrite Z.sub_0_r.
  rewrite (int32_small x) by lia. rewrite (int32_small 19) by lia.
  rewrite (int32_small 1023) by lia. rewrite (int32_small (x * 19)) by lia.
  rewrite Z.quot_div_nonneg by lia.
  rewrite (int32_small (x * 19 / 1023)) by lia.
  rewrite int32_small by lia. apply int16_small. lia.
Qed.

Lemma map_reading_range x :
  0 <= x <= 1023 -> 1 <= int16 (map x 0 1023 1 20) <= 20.
Proof.
  intros Hx. rewrite (map_reading x Hx).
  assert (Hq : 0 <= x * 19 / 1023 <= 19).
  { split; [apply Z.div_pos; lia |].
    apply Z.div_le_upper_bound; lia. }
  lia.
Qed.

(** What the query loop returns is the mapped value of one of the readings
    it took. *)
Lemma queryLoop_result hw fuel : forall w m w',
  queryLoop hw fuel w = Done m w' ->
  exists n, m = int16 (map (adc (hw n)) 0 1023 1 20).
Proof.
  induction fuel as [| fuel IH]; intros w m w' H; [discriminate H |].
  cbn [queryLoop analogRead digitalRead] in H.
  match type of H with
  | match ?l with LOW => _ | HIGH => _ end = _ => destruct l
  end.
  - injection H as <- _. eexists. reflexivity.
  - apply IH in H. exact H.
Qed.

(** The loop ends at the first iteration that finds the button down. *)
Lemma queryLoop_returns hw : forall k fuel w,
  (k < fuel)%nat ->
  pin (hw (tick w + 2 * k + 1))%nat = LOW ->
  exists m w', queryLoop hw fuel w = Done m w'.
Proof.
  induction k as [| k IH]; intros fuel w Hk Hpin;
    (destruct fuel as [| fuel]; [lia |]);
    cbn [queryLoop analogRead digitalRead];
    cbn [tick bump set_tick lcd_setCursor lcd_call set_lcd].
  - replace (tick w + 2 * 0 + 1)%nat with (S (tick w)) in Hpin by lia.
    rewrite Hpin. eauto.
  - destruct (pin (hw (S (tick w)))) eqn:E; [eauto |].
    apply IH; [lia |].
    cbn [tick bump set_tick lcd_setCursor lcd_call set_lcd].
    replace (S (S (tick w)) + 2 * k + 1)%nat
      with (tick w + 2 * S k + 1)%nat by lia.
    exact Hpin.
Qed.

(** The quotient of 10 revolutions by a volume of 1..20 ml, as a byte. *)
Lemma quotient_byte m :
  1 <= m <= 20 ->
  float_to_uint8 (fdiv (float_of_int 10) (float_of_int m)) = Some (10 / m).
Proof.
  intros Hm.
  assert (H : m = 1 \/ m = 2 \/ m = 3 \/ m = 4 \/ m = 5 \/ m = 6 \/ m = 7 \/
              m = 8 \/ m = 9 \/ m = 10 \/ m = 11 \/ m = 12 \/ m = 13 \/
              m = 14 \/ m = 15 \/ m = 16 \/ m = 17 \/ m = 18 \/ m = 19 \/
              m = 20) by lia.
  repeat (destruct H as [-> | H]); try subst m; vm_compute; reflexivity.
Qed.

Lemma store_in_range m w :
  1 <= m <= 20 ->
  storeCalibrationValue m 10 w =
  Done tt (EEPROM_update CALIBRATION_ADDR (10 / m) w).
Proof.
  intros Hm. unfold storeCalibrationValue.
  rewrite (quotient_byte m Hm). reflexivity.
Qed.

Lemma EEPROM_update_read idx val w :
  eeprom (EEPROM_update idx val w) idx = val.
Proof.
  unfold EEPROM_update. destruct (eeprom w idx =? val) eqn:E.
  - apply Z.eqb_eq. exact E.
  - cbn. rewrite Z.eqb_refl. reflexivity.
Qed.

Lemma EEPROM_update_other idx val w a :
  a <> idx -> eeprom (EEPROM_update idx val w) a = eeprom w a.
Proof.
  intros Ha. unfold EEPROM_update.
  destruct (eeprom w idx =? val); [reflexivity |].
  cbn. apply Z.eqb_neq in Ha. rewrite Ha. reflexivity.
Qed.

(** C3.  A calibration run (10 revolutions) whose motor phase completes and
    whose operator confirms 5 ml: the quotient is exactly the binary32
    number 2, [storeCalibrationValue] hands byte 2 to [EEPROM.update], the
    handler returns to Idle, and afterwards the cell at the calibration
    address holds 2 whatever it held before; no other cell changes. *)
Theorem C3_ten_revolutions_five_ml hw fuel w w1 w2
    (Hmotor : runCalibrationMotor hw fuel 10 w = Done tt w1)
    (Hquery : queryForMeasuredLiquid hw fuel w1 = Done 5 w2) :
  fdiv (float_of_int 10) (float_of_int 5) = float_of_int 2 /\
  handleCalibratingState hw fuel w =
    Done tt (set_currentState Idle (EEPROM_update CALIBRATION_ADDR 2 w2)) /\
  eeprom (set_currentState Idle (EEPROM_update CALIBRATION_ADDR 2 w2))
    CALIBRATION_ADDR = 2 /\
  (forall a, a <> CALIBRATION_ADDR ->
     eeprom (set_currentState Idle (EEPROM_update CALIBRATION_ADDR 2 w2)) a
     = eeprom w2 a).
Proof.
  split; [vm_compute; reflexivity |].
  split; [| split].
  - unfold handleCalibratingState. rewrite Hmotor. cbn [bind].
    rewrite Hquery. cbn [bind].
    rewrite (store_in_range 5 w2) by lia. reflexivity.
  - cbn [eeprom set_currentState]. apply EEPROM_update_read.
  - intros a Ha. cbn [eeprom set_currentState].
    apply EEPROM_update_other. exact Ha.
Qed.

Lemma C3_ten_revolutions_five_ml_witness :
  exists w',
    handleCalibratingState (confirming 216) 4001 (boot (fun _ => 255))
      = Done tt w' /\
    currentState w' = Idle /\ eeprom w' CALIBRATION_ADDR = 2.
Proof.
  eassert (Hmotor : runCalibrationMotor (confirming 216) 4001 10
                      (boot (fun _ => 255)) = Done tt _)
    by (vm_compute; reflexivity).
  eassert (Hquery : queryForMeasuredLiquid (confirming 216) 4001 _ = Done 5 _)
    by (vm_compute; reflexivity).
  destruct (C3_ten_revolutions_five_ml _ _ _ _ _ Hmotor Hquery)
    as (_ & H & H2 & _).
  eexists. split; [exact H |]. split; [reflexivity | exact H2].
Defined.

Lemma queryForMeasuredLiquid_range hw fuel w m w' :
  (forall n, 0 <= adc (hw n) <= 1023) ->
  queryForMeasuredLiquid hw fuel w = Done m w' -> 1 <= m <= 20.
Proof.
  intros Hadc H. unfold queryForMeasuredLiquid in H.
  apply queryLoop_result in H. destruct H as (n & ->).
  apply map_reading_range, Hadc.
Qed.

(** C9.  With analog readings in 0..1023, whatever [queryForMeasuredLiquid]
    returns lies in 1..20; it does return once the button is found down;
    and the call [storeCalibrationValue(measuredLiquid, 10)] that follows it
    in [handleCalibratingState] has a non-zero divisor and a quotient with a
    byte value, so the handler never reaches [EEPROM.update] without one. *)
Theorem C9_measured_volume_range hw
    (Hadc : forall n, 0 <= adc (hw n) <= 1023) :
  (forall fuel w m w',
     queryForMeasuredLiquid hw fuel w = Done m w' ->
     1 <= m <= 20 /\ float_of_int m <> S754_zero false /\
     storeCalibrationValue m 10 w' =
       Done tt (EEPROM_update CALIBRATION_ADDR (10 / m) w')) /\
  (forall k fuel w,
     (k < fuel)%nat -> pin (hw (tick w + 2 * k + 1))%nat = LOW ->
     exists m w', queryForMeasuredLiquid hw fuel w = Done m w') /\
  (forall fuel w q w', handleCalibratingState hw fuel w <> NoByte q w').
Proof.
  split; [| split].
  - intros fuel w m w' H.
    pose proof (queryForMeasuredLiquid_range hw fuel w m w' Hadc H) as Hm.
    split; [exact Hm |]. split; [| apply store_in_range; exact Hm].
    assert (Hc : m = 1 \/ m = 2 \/ m = 3 \/ m = 4 \/ m = 5 \/ m = 6 \/
                 m = 7 \/ m = 8 \/ m = 9 \/ m = 10 \/ m = 11 \/ m = 12 \/
                 m = 13 \/ m = 14 \/ m = 15 \/ m = 16 \/ m = 17 \/ m = 18 \/
                 m = 19 \/ m = 20) by lia.
    repeat (destruct Hc as [-> | Hc]); try subst m; vm_compute; discriminate.
  - intros k fuel w Hk Hpin. unfold queryForMeasuredLiquid.
    apply (queryLoop_returns hw k); [exact Hk |].
    cbn [tick lcd_setCursor lcd_call set_lcd]. exact Hpin.
  - intros fuel w q w' H. unfold handleCalibratingState in H.
    destruct (runCalibrationMotor hw fuel 10 w) as [[] w1 | | q1 w1] eqn:Hm;
      cbn [bind] in H; [| discriminate H |].
    + destruct (queryForMeasuredLiquid hw fuel w1) as [m w2 | | q2 w2] eqn:Hq;
        cbn [bind] in H; [| discriminate H |].
      * pose proof (queryForMeasuredLiquid_range hw fuel w1 m w2 Hadc Hq) as Hr.
        rewrite (store_in_range m w2 Hr) in H. cbn [bind] in H. discriminate H.
      * unfold queryForMeasuredLiquid in Hq.
        assert (Hn : forall f v, queryLoop hw f v <> NoByte q2 w2).
        { induction f as [| f IH]; intros v Hv; [discriminate Hv |].
          cbn [queryLoop analogRead digitalRead] in Hv.
          match type of Hv with
          | match ?l with LOW => _ | HIGH => _ end = _ => destruct l
          end; [discriminate Hv | exact (IH _ Hv)]. }
        exact (Hn _ _ Hq).
    + unfold runCalibrationMotor in Hm.
      assert (Hn : forall f v, runMotorLoop hw f v <> NoByte q1 w1).
      { induction f as [| f IH]; intros v Hv; cbn [runMotorLoop] in Hv;
          destruct (stepper_distanceToGo v =? 0); try discriminate Hv.
        exact (IH _ Hv). }
      exact (Hn _ _ Hm).
Qed.

Lemma C9_measured_volume_range_witness :
  exists m w',
    queryForMeasuredLiquid (confirming 1023) 1 (boot (fun _ => 255))
      = Done m w' /\ 1 <= m <= 20.
Proof.
  assert (Hadc : forall n, 0 <= adc (confirming 1023 n) <= 1023)
    by (intros n; cbn; lia).
  destruct (proj1 (proj2 (C9_measured_volume_range (confirming 1023) Hadc))
              0%nat 1%nat (boot (fun _ => 255)) ltac:(lia) eq_refl)
    as (m & w' & H).
  exists m, w'. split; [exact H |].
  apply (proj1 (C9_measured_volume_range (confirming 1023) Hadc) _ _ _ _ H).
Defined.

(** ** Zero measured volume *)

(** C2 as stated fails: with a measured volume of 0 the function performs
    the division, obtains +infinity and goes on to [EEPROM.update] with
    it; it does not return early with the machine untouched. *)
Lemma C2_zero_volume_not_rejected :
  let w := boot (fun _ => 255) in
  fdiv (float_of_int 10) (float_of_int 0) = S754_infinity false /\
  storeCalibrationValue 0 10 w = NoByte (S754_infinity false) w /\
  storeCalibrationValue 0 10 w <> Done tt w.
Proof.
  intros w. split; [vm_compute; reflexivity |].
  assert (H : storeCalibrationValue 0 10 w = NoByte (S754_infinity false) w)
    by reflexivity.
  split; [exact H |]. rewrite H. discriminate.
Qed.

(** C2, amended.  [storeCalibrationValue] has no guard on the divisor: with
    a measured volume of 0 and 10 revolutions, in every machine state, the
    quotient is +infinity and [EEPROM.update] is reached with it, a value
    without a byte conversion.  For the volumes 1..20 that its call site
    supplies, it stores the truncated quotient at the calibration
    address. *)
Theorem C2_no_zero_guard w :
  storeCalibrationValue 0 10 w = NoByte (S754_infinity false) w /\
  (forall m, 1 <= m <= 20 ->
     storeCalibrationValue m 10 w =
       Done tt (EEPROM_update CALIBRATION_ADDR (10 / m) w) /\
     eeprom (EEPROM_update CALIBRATION_ADDR (10 / m) w) CALIBRATION_ADDR
       = 10 / m).
Proof.
  split; [reflexivity |].
  intros m Hm. split; [apply store_in_range; exact Hm |].
  apply EEPROM_update_read.
Qed.

Lemma C2_no_zero_guard_witness :
  storeCalibrationValue 3 10 (boot (fun _ => 255)) =
    Done tt (EEPROM_update CALIBRATION_ADDR 3 (boot (fun _ => 255))).
Proof.
  apply (proj2 (C2_no_zero_guard (boot (fun _ => 255))) 3 ltac:(lia)).
Defined.

(** ** Display clears *)

Lemma clears_app l1 l2 : clears (l1 ++ l2) = (clears l1 + clears l2)%nat.
Proof. unfold clears. rewrite filter_app, length_app. reflexivity. Qed.

Lemma Sends_trans n m a b c :
  Sends n a b -> Sends m b c -> Sends (n + m) a c.
Proof.
  intros (Hp1 & e1 & Hl1 & Hc1) (Hp2 & e2 & Hl2 & Hc2). split.
  - congruence.
  - exists (e1 ++ e2). rewrite Hl2, Hl1, <- app_assoc, clears_app.
    split; [reflexivity | congruence].
Qed.

Ltac world_simpl :=
  cbn [currentState previousState buttonPressStartTime isButtonPressed
       menu_isWaitingForButtonRelease menu_buttonPressStartTime isPurging
       purgeEndTime eeprom lcd stepper tick
       set_currentState set_previousState set_buttonPressStartTime
       set_isButtonPressed set_menu_isWaitingForButtonRelease
       set_menu_buttonPressStartTime set_isPurging set_purgeEndTime
       set_eeprom set_lcd set_stepper set_tick
       bump millis digitalRead analogRead delay lcd_call lcd_setCursor
       centerTextOnLCD fst snd].

Ltac branch :=
  match goal with
  | |- context [if ?b then _ else _] => destruct b eqn:?
  | |- context [match ?x with LOW => _ | HIGH => _ end] => destruct x eqn:?
  end.

Ltac sends_now :=
  split; [reflexivity |]; world_simpl; rewrite <- ?app_assoc;
  first [ eexists; split; [reflexivity | reflexivity]
        | exists []; split; [symmetry; apply app_nil_r | reflexivity] ].

Ltac sends_by_cases := world_simpl; repeat (branch; world_simpl); sends_now.

Lemma handleIdleState_Sends w : Sends 0 w (handleIdleState w).
Proof. unfold handleIdleState. sends_by_cases. Qed.

Lemma handleRunningState_Sends w : Sends 0 w (handleRunningState w).
Proof. unfold handleRunningState. sends_by_cases. Qed.

Lemma handleCanceledState_Sends w : Sends 0 w (handleCanceledState w).
Proof. unfold handleCanceledState. sends_by_cases. Qed.

Lemma handleCalibrationMenuState_Sends hw w :
  Sends 0 w (handleCalibrationMenuState hw w).
Proof.
  unfold handleCalibrationMenuState.
  cbv zeta.
  match goal with
  | |- context [centerTextOnLCD "Press: Calib" 0 ?first] =>
      assert (H1 : Sends 0 w first) by sends_by_cases;
      set (w1 := first) in *
  end.
  set (w3 := centerTextOnLCD _ 1 (centerTextOnLCD _ 0 w1)).
  assert (H3 : Sends 0 w1 w3) by (subst w3; sends_now).
  apply (Sends_trans 0 0 _ _ _ H1), (Sends_trans 0 0 _ _ _ H3).
  clearbody w3. clear H1 H3. clearbody w1.
  sends_by_cases.
Qed.

Lemma handlePurgingState_Sends hw w : Sends 0 w (handlePurgingState hw w).
Proof. unfold handlePurgingState. sends_by_cases. Qed.

Lemma stepper_runSpeed_Sends hw w : Sends 0 w (stepper_runSpeed hw w).
Proof. unfold stepper_runSpeed. sends_by_cases. Qed.

Lemma runMotorLoop_Sends hw fuel : forall w w',
  runMotorLoop hw fuel w = Done tt w' -> Sends 0 w w'.
Proof.
  induction fuel as [| fuel IH]; intros w w' H; cbn [runMotorLoop] in H;
    destruct (stepper_distanceToGo w =? 0).
  - injection H as <-. sends_now.
  - discriminate H.
  - injection H as <-. sends_now.
  - apply (Sends_trans 0 0 _ _ _ (stepper_runSpeed_Sends hw w)).
    apply IH. exact H.
Qed.

Lemma runCalibrationMotor_Sends hw fuel n w w' :
  runCalibrationMotor hw fuel n w = Done tt w' -> Sends 0 w w'.
Proof.
  unfold runCalibrationMotor. intros H.
  apply runMotorLoop_Sends in H.
  refine (Sends_trans 0 0 _ _ _ _ H).
  unfold stepper_move, stepper_setSpeed, stepper_setMaxSpeed. sends_by_cases.
Qed.

Lemma queryLoop_Sends hw fuel : forall w m w',
  queryLoop hw fuel w = Done m w' -> Sends 0 w w'.
Proof.
  induction fuel as [| fuel IH]; intros w m w' H; [discriminate H |].
  cbn [queryLoop analogRead digitalRead] in H.
  match type of H with
  | match ?l with LOW => _ | HIGH => _ end = _ => destruct l
  end.
  - injection H as _ <-. sends_now.
  - apply IH in H. refine (Sends_trans 0 0 _ _ _ _ H). sends_now.
Qed.

Lemma queryForMeasuredLiquid_Sends hw fuel w m w' :
  queryForMeasuredLiquid hw fuel w = Done m w' -> Sends 1 w w'.
Proof.
  unfold queryForMeasuredLiquid. intros H. apply queryLoop_Sends in H.
  refine (Sends_trans 1 0 _ _ _ _ H). sends_now.
Qed.

Lemma storeCalibrationValue_Sends m n w w' :
  storeCalibrationValue m n w = Done tt w' -> Sends 0 w w'.
Proof.
  unfold storeCalibrationValue, EEPROM_update. intros H.
  destruct (float_to_uint8 _); [| discriminate H].
  destruct (eeprom w CALIBRATION_ADDR =? z); injection H as <-; sends_now.
Qed.

Lemma handleCalibratingState_Sends hw fuel w w' :
  handleCalibratingState hw fuel w = Done tt w' -> Sends 1 w w'.
Proof.
  unfold handleCalibratingState. intros H.
  destruct (runCalibrationMotor hw fuel 10 w) as [[] w1 | |] eqn:H1;
    cbn [bind] in H; try discriminate H.
  destruct (queryForMeasuredLiquid hw fuel w1) as [m w2 | |] eqn:H2;
    cbn [bind] in H; try discriminate H.
  destruct (storeCalibrationValue m 10 w2) as [[] w3 | |] eqn:H3;
    cbn [bind] in H; try discriminate H.
  injection H as <-.
  apply runCalibrationMotor_Sends in H1.
  apply queryForMeasuredLiquid_Sends in H2.
  apply storeCalibrationValue_Sends in H3.
  apply (Sends_trans 0 1 _ _ _ H1).
  apply (Sends_trans 1 0 _ _ _ H2).
  apply (Sends_trans 0 0 _ _ _ H3).
  sends_now.
Qed.

(** What the dispatch of [loop] sends, by the state dispatched. *)
Lemma dispatch_Sends hw fuel w w' :
  match currentState w with
  | Idle => Done tt (handleIdleState w)
  | CalibrationMenu => Done tt (handleCalibrationMenuState hw w)
  | Calibrating => handleCalibratingState hw fuel w
  | Purging => Done tt (handlePurgingState hw w)
  | Running => Done tt (handleRunningState w)
  | Canceled => Done tt (handleCanceledState w)
  end = Done tt w' ->
  Sends (match currentState w with Calibrating => 1 | _ => 0 end) w w'.
Proof.
  destruct (currentState w); intros H;
    try (injection H as <-).
  - apply handleIdleState_Sends.
  - apply handleCalibrationMenuState_Sends.
  - apply handleCalibratingState_Sends with (1 := H).
  - apply handlePurgingState_Sends.
  - apply handleRunningState_Sends.
  - apply handleCanceledState_Sends.
Qed.

(** C4 as stated fails: the iteration of [loop] that notices the change
    CalibrationMenu -> Calibrating clears the display twice, once in
    [loop] and once more in [queryForMeasuredLiquid]. *)
Lemma C4_calibrating_clears_twice :
  let w := entering Calibrating CalibrationMenu in
  currentState w <> previousState w /\ clears (lcd w) = 0%nat /\
  exists w', loop (confirming 216) 4001 w = Done tt w' /\
             clears (lcd w') = 2%nat.
Proof.
  intros w. split; [discriminate |]. split; [reflexivity |].
  eassert (H : loop (confirming 216) 4001 w = Done tt _)
    by (vm_compute; reflexivity).
  eexists. split; [exact H |]. vm_compute. reflexivity.
Qed.

(** C4, amended.  An iteration of [loop] that returns: when [currentState]
    differs from [previousState] the first call the display receives in
    that iteration is a clear, issued before the handler runs, and
    [previousState] becomes [currentState]; the number of clears of the
    iteration is one for that change (none without it) plus one if the
    state dispatched is Calibrating, whose handler clears the display in
    [queryForMeasuredLiquid]; so an iteration without a change that
    dispatches any other state clears nothing. *)
Theorem C4_clears_per_iteration hw fuel w w'
    (H : loop hw fuel w = Done tt w') :
  let changed := negb (SystemState_eqb (currentState w) (previousState w)) in
  (changed = true -> exists rest, lcd w' = lcd w ++ LcdClear :: rest) /\
  previousState w' = currentState w /\
  clears (lcd w') =
    (clears (lcd w) + (if changed then 1 else 0)
     + match currentState w with Calibrating => 1 | _ => 0 end)%nat /\
  (changed = false -> currentState w <> Calibrating ->
   clears (lcd w') = clears (lcd w)).
Proof.
  intros changed. unfold loop in H. fold changed in H.
  assert (Heq : changed = false -> previousState w = currentState w).
  { unfold changed. destruct (currentState w), (previousState w);
      intros E; try reflexivity; discriminate E. }
  destruct changed eqn:Hc.
  - apply dispatch_Sends in H. revert H. world_simpl.
    intros (Hp & ext & Hl & Hn). revert Hp Hl. world_simpl. intros Hp Hl.
    split; [intros _; exists ext; rewrite Hl, <- app_assoc; reflexivity |].
    split; [exact Hp |].
    split; [| intros E; discriminate E].
    rewrite Hl, !clears_app, Hn. cbn. lia.
  - apply dispatch_Sends in H. destruct H as (Hp & ext & Hl & Hn).
    split; [intros E; discriminate E |].
    split; [rewrite Hp; auto |].
    split.
    + rewrite Hl, clears_app, Hn. lia.
    + intros _ Hne. rewrite Hl, clears_app, Hn.
      destruct (currentState w); try lia. contradiction Hne. reflexivity.
Qed.

Lemma C4_clears_per_iteration_witness :
  exists w',
    loop (released_at 0) 0 (entering Running Idle) = Done tt w' /\
    clears (lcd w') = 1%nat /\ previousState w' = Running.
Proof.
  eexists. split; [reflexivity |].
  destruct (C4_clears_per_iteration (released_at 0) 0 (entering Running Idle)
              _ eq_refl) as (_ & Hp & Hn & _).
  split; [exact Hn | exact Hp].
Defined.

(** ** Leaving the purge *)

(** The four ways an invocation goes once purging has started. *)
Lemma purging_step hw w :
  isPurging w = true ->
  let now := u32 (ms (hw (S (tick w)))) in
  (pin (hw (tick w)) = LOW /\
   handlePurgingState hw w = set_purgeEndTime 0 (bump w)) \/
  (pin (hw (tick w)) = HIGH /\ purgeEndTime w = 0 /\
   handlePurgingState hw w = set_purgeEndTime now (bump (bump w))) \/
  (pin (hw (tick w)) = HIGH /\ purgeEndTime w <> 0 /\
   2000 < u32 (now - purgeEndTime w) /\
   handlePurgingState hw w =
     centerTextOnLCD "Idle" 0
       (set_currentState Idle (set_isPurging false (bump (bump w))))) \/
  (pin (hw (tick w)) = HIGH /\ purgeEndTime w <> 0 /\
   u32 (now - purgeEndTime w) <= 2000 /\
   handlePurgingState hw w = bump (bump w)).
Proof.
  intros Hp now. unfold handlePurgingState. rewrite Hp.
  cbn [negb digitalRead]. destruct (pin (hw (tick w))) eqn:Hpin.
  - left. auto.
  - right. world_simpl. destruct (purgeEndTime w =? 0) eqn:E0.
    + left. apply Z.eqb_eq in E0. auto.
    + right. apply Z.eqb_neq in E0. fold now.
      destruct (2000 <? u32 (now - purgeEndTime w)) eqn:E1.
      * left. apply Z.ltb_lt in E1. auto.
      * right. apply Z.ltb_ge in E1. auto.
Qed.

(** Before purging has started the handler stays in its state, and if it
    starts purging the settle timer is cleared. *)
Lemma waiting_step hw w :
  isPurging w = false ->
  currentState (handlePurgingState hw w) = currentState w /\
  (isPurging (handlePurgingState hw w) = true ->
   purgeEndTime (handlePurgingState hw w) = 0).
Proof.
  intros Hp. unfold handlePurgingState. rewrite Hp.
  cbn [negb]. world_simpl. destruct (pin (hw (tick w))); world_simpl.
  - split; reflexivity.
  - split; [reflexivity |]. intros H. congruence.
Qed.

(** While purging, a non-zero settle timer is the clock value read by an
    earlier invocation, and every invocation since has found the button
    up. *)
Lemma settle_timer_origin hw w0 :
  (isPurging w0 = true -> purgeEndTime w0 = 0) ->
  forall n,
    isPurging (purgeRun hw n w0) = true ->
    purgeEndTime (purgeRun hw n w0) = 0 \/
    exists j, (j < n)%nat /\
      purgeEndTime (purgeRun hw n w0) = clockSeen hw w0 j /\
      forall i, (j <= i < n)%nat -> pinSeen hw w0 i = HIGH.
Proof.
  intros H0. induction n as [| n IH]; intros Hp.
  - left. apply H0. exact Hp.
  - cbn [purgeRun] in *. set (w := purgeRun hw n w0) in *.
    destruct (isPurging w) eqn:Hw.
    + destruct (purging_step hw w Hw)
        as [(Hpin & ->) | [(Hpin & Hz & ->) | [(Hpin & Hnz & Hlt & Heq)
                                              | (Hpin & Hnz & Hle & Heq)]]].
      * left. reflexivity.
      * right. exists n. split; [lia |]. split; [reflexivity |].
        intros i Hi. assert (i = n) by lia. subst i. exact Hpin.
      * rewrite Heq in Hp. discriminate Hp.
      * rewrite Heq. world_simpl.
        destruct (IH eq_refl) as [Hz | (j & Hj & Ht & Hall)];
          [contradiction |].
        right. exists j. split; [lia |]. split; [exact Ht |].
        intros i Hi. destruct (Nat.eq_dec i n) as [-> | Hne];
          [exact Hpin | apply Hall; lia].
    + left. apply (proj2 (waiting_step hw w Hw)). exact Hp.
Qed.

(** X21.  Run [handlePurgingState] repeatedly from a machine whose settle
    timer is clear if it is purging (as the handler leaves it when it
    starts purging).  If invocation [n] takes the machine
    from Purging to Idle, then some earlier invocation [j] found the button
    up and recorded its clock read in [purgeEndTime], every invocation from
    [j] to [n] found the button up, and the clock read of invocation [n]
    is more than 2000 ms past the recorded one (modulo 2^32, and as plain
    difference when the clock did not wrap in between).  An invocation
    that finds the button down while purging zeroes [purgeEndTime] and
    leaves the state and the purging flag as they are. *)
Theorem X21_purge_exit_after_settle hw w0
    (H0 : isPurging w0 = true -> purgeEndTime w0 = 0) :
  (forall n,
     currentState (purgeRun hw n w0) = Purging ->
     currentState (purgeRun hw (S n) w0) = Idle ->
     exists j, (j < n)%nat /\
       (forall i, (j <= i <= n)%nat -> pinSeen hw w0 i = HIGH) /\
       purgeEndTime (purgeRun hw n w0) = clockSeen hw w0 j /\
       2000 < u32 (clockSeen hw w0 n - clockSeen hw w0 j) /\
       (clockSeen hw w0 j <= clockSeen hw w0 n ->
        2000 < clockSeen hw w0 n - clockSeen hw w0 j)) /\
  (forall w,
     isPurging w = true -> pin (hw (tick w)) = LOW ->
     purgeEndTime (handlePurgingState hw w) = 0 /\
     currentState (handlePurgingState hw w) = currentState w /\
     isPurging (handlePurgingState hw w) = true).
Proof.
  split.
  - intros n Hs Hs'. cbn [purgeRun] in Hs'.
    pose proof (settle_timer_origin hw w0 H0 n) as Hinv.
    assert (Hcn : clockSeen hw w0 n
                  = u32 (ms (hw (S (tick (purgeRun hw n w0))))))
      by reflexivity.
    assert (Hpn : pinSeen hw w0 n = pin (hw (tick (purgeRun hw n w0))))
      by reflexivity.
    set (w := purgeRun hw n w0) in *.
    destruct (isPurging w) eqn:Hw.
    + destruct (purging_step hw w Hw)
        as [(Hpin & Heq) | [(Hpin & Hz & Heq) | [(Hpin & Hnz & Hlt & Heq)
                                                | (Hpin & Hnz & Hle & Heq)]]];
        try (rewrite Heq in Hs'; revert Hs'; world_simpl; congruence).
      destruct (Hinv eq_refl) as [Hz | (j & Hj & Ht & Hall)];
        [contradiction |].
      exists j. split; [exact Hj |]. split; [| split; [exact Ht |]].
      * intros i Hi. destruct (Nat.eq_dec i n) as [-> | Hne];
          [rewrite Hpn; exact Hpin | apply Hall; lia].
      * assert (Hr' : 0 <= purgeEndTime w < 2 ^ 32)
          by (rewrite Ht; apply u32_range).
        pose proof (u32_range (ms (hw (S (tick w))))) as Hr.
        rewrite Hcn, <- Ht. split; [exact Hlt |].
        intros Hord. rewrite u32_small in Hlt; [exact Hlt |].
        change (2 ^ 32) with 4294967296 in *. lia.
    + rewrite (proj1 (waiting_step hw w Hw)) in Hs'. congruence.
  - intros w Hp Hpin.
    destruct (purging_step hw w Hp)
      as [(_ & ->) | [(Hc & _) | [(Hc & _) | (Hc & _)]]];
      try congruence.
    world_simpl. auto.
Qed.

Lemma X21_purge_exit_after_settle_witness :
  let w0 := set_currentState Purging (boot (fun _ => 255)) in
  exists j, (j < 2)%nat /\
    (forall i, (j <= i <= 2)%nat -> pinSeen press_then_release w0 i = HIGH) /\
    2000 < u32 (clockSeen press_then_release w0 2
                - clockSeen press_then_release w0 j).
Proof.
  intros w0.
  assert (H0 : isPurging w0 = true -> purgeEndTime w0 = 0)
    by (intros _; reflexivity).
  destruct (proj1 (X21_purge_exit_after_settle press_then_release w0 H0) 2%nat
              eq_refl eq_refl) as (j & Hj & Hall & _ & Hlt & _).
  exists j. auto.
Defined.

(** C6 (the code departs from the claim).  The statics of
    [handlePurgingState] survive a departure from Purging that the handler
    did not make.  Over a run of the whole system from boot: the button is
    held for 6 s while purging and released at 18000 ms; the purge handler
    records the release in [purgeEndTime] and the interrupt handler, for
    which this is a long press, moves the machine to CalibrationMenu
    (their writes are disjoint, so the handler already dispatched and the
    interrupt running inside it give the same state as the handler
    followed by the interrupt).  In the menu the button is held from 19000
    to 21500 ms, which selects Purging.  After these 18 events the machine
    is in Purging, still flagged as purging, with the settle timer at
    18000; the next iteration of [loop] finds the button up at 21501 ms
    and goes to Idle, 1 ms after a release, although the button was down
    for 2500 ms since the recorded one. *)
Theorem C6_stale_settle_timer :
  let hw := purge_reentry_hw in
  exists w18 w19,
    runEvents hw purge_reentry_events (boot (fun _ => 255)) = Done tt w18 /\
    currentState w18 = Purging /\ isPurging w18 = true /\
    purgeEndTime w18 = 18000 /\ tick w18 = 32%nat /\
    (* the button was down, then up, after the recorded release *)
    pin (hw 24%nat) = LOW /\ ms (hw 25%nat) = 19000 /\
    pin (hw 26%nat) = LOW /\
    pin (hw 28%nat) = HIGH /\ ms (hw 29%nat) = 21500 /\
    (* the next dispatch of the purge handler leaves for Idle *)
    step hw (LoopIteration 0) w18 = Done tt w19 /\
    pin (hw 32%nat) = HIGH /\ ms (hw 33%nat) = 21501 /\
    currentState w19 = Idle /\ isPurging w19 = false /\
    ms (hw 33%nat) - ms (hw 29%nat) < 2000.
Proof.
  intros hw. eexists. eexists.
  split; [vm_compute; reflexivity |].
  do 9 (split; [reflexivity |]).
  split; [vm_compute; reflexivity |].
  do 4 (split; [reflexivity |]). reflexivity.
Qed.

(** * Further properties of the sketch *)

(** ** The interrupt handler *)

Lemma u32_sub_wrap s e : 0 <= e < 2 ^ 32 -> u32 (u32 (s + e) - s) = e.
Proof.
  intros He. unfold u32. rewrite Zminus_mod_idemp_l.
  replace (s + e - s) with e by lia. apply Z.mod_small. exact He.
Qed.

(** X1.  The press length is measured modulo 2^32, so a press that spans
    the roll-over of [millis()] is still measured by its true length [e]
    (below 2^32 ms) and handled by the band [e] falls in. *)
Theorem X1_press_across_rollover hw w e
    (Hp : isButtonPressed w = true) (He : 0 <= e < 2 ^ 32)
    (Hclock : fst (millis hw w) = u32 (buttonPressStartTime w + e)) :
  pressDuration hw w = e /\
  handleButtonPress hw w =
    set_isButtonPressed false (pressEffect (classifyPress e) (bump w)).
Proof.
  assert (Hd : pressDuration hw w = e).
  { unfold pressDuration. rewrite Hclock. apply u32_sub_wrap. exact He. }
  split; [exact Hd |].
  rewrite (handleButtonPress_by_band hw w Hp), Hd. reflexivity.
Qed.

Lemma X1_press_across_rollover_witness :
  pressDuration (released_at 100) (pressed_since (2 ^ 32 - 100) Idle) = 200 /\
  currentState
    (handleButtonPress (released_at 100) (pressed_since (2 ^ 32 - 100) Idle))
  = Running.
Proof.
  destruct (X1_press_across_rollover (released_at 100)
              (pressed_since (2 ^ 32 - 100) Idle) 200 eq_refl
              ltac:(split; [discriminate | reflexivity]) eq_refl)
    as (Hd & Hw).
  split; [exact Hd |]. rewrite Hw. reflexivity.
Defined.

(** The three ways a run of the interrupt handler goes when it does not
    reach [handleButtonPress]. *)
Lemma buttonPressISR_press hw w :
  pin (hw (tick w)) = LOW -> isButtonPressed w = false ->
  buttonPressISR hw w =
  set_isButtonPressed true
    (set_buttonPressStartTime (u32 (ms (hw (S (tick w))))) (bump (bump w))).
Proof.
  intros Hpin Hp. unfold buttonPressISR. cbn [digitalRead]. rewrite Hpin.
  change (isButtonPressed (bump w)) with (isButtonPressed w). rewrite Hp.
  reflexivity.
Qed.

Lemma buttonPressISR_idle hw w :
  (pin (hw (tick w)) = LOW /\ isButtonPressed w = true) \/
  (pin (hw (tick w)) = HIGH /\ isButtonPressed w = false) ->
  buttonPressISR hw w = bump w.
Proof.
  intros [(Hpin & Hp) | (Hpin & Hp)]; unfold buttonPressISR;
    cbn [digitalRead]; rewrite Hpin;
    change (isButtonPressed (bump w)) with (isButtonPressed w); rewrite Hp;
    reflexivity.
Qed.

Lemma buttonPressISR_release hw w :
  pin (hw (tick w)) = HIGH -> isButtonPressed w = true ->
  buttonPressISR hw w =
  set_isButtonPressed false
    (pressEffect (classifyPress (pressDuration hw (bump w))) (bump (bump w))).
Proof.
  intros Hpin Hp. unfold buttonPressISR. cbn [digitalRead]. rewrite Hpin.
  change (isButtonPressed (bump w)) with (isButtonPressed w). rewrite Hp.
  apply (handleButtonPress_by_band hw (bump w)). exact Hp.
Qed.

(** X2.  A press edge followed by a release edge, starting with no press
    under way: the second run of the handler classifies the difference of
    the two clock reads (modulo 2^32), applies that band's effect to the
    state the machine is in, keeps the recorded start time and clears the
    flag, so the next press starts afresh.  Edges that do not fit (a
    second press edge while a press is under way, a release edge without
    one) only consume their pin read. *)
Theorem X2_press_release_cycle hw w
    (Hfree : isButtonPressed w = false)
    (Hdown : pin (hw (tick w)) = LOW)
    (Hup : pin (hw (S (S (tick w)))) = HIGH) :
  let t0 := u32 (ms (hw (S (tick w)))) in
  let t1 := u32 (ms (hw (S (S (S (tick w)))))) in
  let w2 := buttonPressISR hw (buttonPressISR hw w) in
  currentState w2
    = currentState (pressEffect (classifyPress (u32 (t1 - t0))) w) /\
  isButtonPressed w2 = false /\
  buttonPressStartTime w2 = t0 /\
  tick w2 = (tick w + 4)%nat /\
  (forall v, isButtonPressed v = true -> pin (hw (tick v)) = LOW ->
     buttonPressISR hw v = bump v) /\
  (forall v, isButtonPressed v = false -> pin (hw (tick v)) = HIGH ->
     buttonPressISR hw v = bump v).
Proof.
  intros t0 t1 w2. subst w2.
  rewrite (buttonPressISR_press hw w Hdown Hfree).
  rewrite buttonPressISR_release by (world_simpl; auto).
  unfold pressDuration. world_simpl. fold t0 t1.
  split; [| split; [| split; [| split; [| split]]]].
  - destruct (classifyPress (u32 (t1 - t0))); cbn [pressEffect];
      world_simpl; try reflexivity.
    destruct (currentState w); reflexivity.
  - reflexivity.
  - destruct (classifyPress (u32 (t1 - t0))); cbn [pressEffect];
      world_simpl; try reflexivity.
    destruct (currentState w); reflexivity.
  - destruct (classifyPress (u32 (t1 - t0))); cbn [pressEffect];
      world_simpl; try lia.
    destruct (currentState w); world_simpl; lia.
  - intros v Hv Hpin. apply buttonPressISR_idle. auto.
  - intros v Hv Hpin. apply buttonPressISR_idle. auto.
Qed.

Lemma X2_press_release_cycle_witness :
  currentState
    (buttonPressISR (press_release 1200)
       (buttonPressISR (press_release 1200)
          (boot (fun _ => 255)))) = Running.
Proof.
  rewrite (proj1 (X2_press_release_cycle (press_release 1200)
                    (boot (fun _ => 255)) eq_refl eq_refl eq_refl)).
  reflexivity.
Defined.

Lemma buttonPressISR_frame hw w :
  let w' := buttonPressISR hw w in
  menu_vars w' = menu_vars w /\ purge_vars w' = purge_vars w /\
  previousState w' = previousState w /\ eeprom w' = eeprom w /\
  lcd w' = lcd w /\ stepper w' = stepper w.
Proof.
  intros w'. subst w'.
  destruct (pin (hw (tick w))) eqn:Hpin; destruct (isButtonPressed w) eqn:Hp.
  - rewrite buttonPressISR_idle by auto. repeat split.
  - rewrite buttonPressISR_press by auto. repeat split.
  - rewrite buttonPressISR_release by auto.
    destruct (classifyPress _); cbn [pressEffect]; world_simpl;
      try (repeat split; fail).
    destruct (currentState w); repeat split.
  - rewrite buttonPressISR_idle by auto. repeat split.
Qed.

(** X3.  The interrupt handler touches nothing but [currentState], the
    press start time, the press flag and the read counter: the statics of
    the menu and of the purge, [previousState], the EEPROM, the display
    and the stepper are as before, whatever the pin and the clock read. *)
Theorem X3_interrupt_frame hw w :
  let w' := buttonPressISR hw w in
  menu_vars w' = menu_vars w /\ purge_vars w' = purge_vars w /\
  previousState w' = previousState w /\ eeprom w' = eeprom w /\
  lcd w' = lcd w /\ stepper w' = stepper w.
Proof.
  pose proof (buttonPressISR_frame hw w) as H. cbv zeta in *.
  destruct H as (H1 & H2 & H3 & H4 & H5 & H6).
  repeat split; assumption.
Qed.

(** ** The calibration menu *)

Lemma handleCalibrationMenuState_halves hw w :
  handleCalibrationMenuState hw w = menu_detect hw (menu_text (menu_gate hw w)).
Proof. reflexivity. Qed.

Lemma menuChoice_spec d c :
  (d < 50 -> menuChoice d c = c) /\
  (50 <= d < 2000 -> menuChoice d c = Calibrating) /\
  (2000 <= d -> menuChoice d c = Purging).
Proof.
  unfold menuChoice.
  destruct (50 <=? d) eqn:E1; destruct (d <? 2000) eqn:E2;
    destruct (2000 <=? d) eqn:E3; cbn [andb];
    repeat split; intros H; try reflexivity; lia.
Qed.

Lemma menu_text_ctl w : menu_ctl (menu_text w) = menu_ctl w.
Proof. reflexivity. Qed.

Lemma menu_detect_ctl hw v cs st T :
  menu_ctl v = (cs, false, st, T) ->
  menu_ctl (menu_detect hw v) =
  match pin (hw T) with
  | LOW => if st =? 0 then (cs, false, u32 (ms (hw (S T))), S (S T))
           else (cs, false, st, S T)
  | HIGH => if 0 <? st
            then (menuChoice (u32 (u32 (ms (hw (S T))) - st)) cs,
                  false, 0, S (S T))
            else (cs, false, st, S T)
  end.
Proof.
  destruct v as [c p b i g s ip pe ee l m t]. unfold menu_ctl. cbn.
  intros H. injection H as -> -> -> ->.
  unfold menu_detect, menuChoice. cbn.
  destruct (pin (hw T)); cbn.
  - destruct (st =? 0); reflexivity.
  - destruct (0 <? st); [| reflexivity]. cbn.
    destruct ((50 <=? _) && (_ <? 2000)); [reflexivity |].
    destruct (2000 <=? _); reflexivity.
Qed.

Lemma menu_detect_gated hw v :
  menu_isWaitingForButtonRelease v = true -> menu_detect hw v = v.
Proof. intros Hg. unfold menu_detect. rewrite Hg. reflexivity. Qed.

(** Past the release gate, by what the handler reads. *)
Lemma menu_step hw w :
  menu_isWaitingForButtonRelease w = false ->
  let T := tick w in
  let cs := currentState w in
  let st := menu_buttonPressStartTime w in
  menu_ctl (handleCalibrationMenuState hw w) =
  match pin (hw T) with
  | LOW => if st =? 0 then (cs, false, u32 (ms (hw (S T))), S (S T))
           else (cs, false, st, S T)
  | HIGH => if 0 <? st
            then (menuChoice (u32 (u32 (ms (hw (S T))) - st)) cs,
                  false, 0, S (S T))
            else (cs, false, st, S T)
  end.
Proof.
  intros Hg T cs st. subst T cs st.
  rewrite handleCalibrationMenuState_halves.
  assert (Hgate : menu_gate hw w = w) by (unfold menu_gate; rewrite Hg; reflexivity).
  rewrite Hgate. apply menu_detect_ctl.
  rewrite menu_text_ctl. unfold menu_ctl. rewrite Hg. reflexivity.
Qed.

(** Before the button has been seen up once, a button found down is left
    alone. *)
Lemma menu_step_gated hw w :
  menu_isWaitingForButtonRelease w = true -> pin (hw (tick w)) = LOW ->
  menu_ctl (handleCalibrationMenuState hw w) =
  (currentState w, true, menu_buttonPressStartTime w, S (tick w)).
Proof.
  intros Hg Hpin. rewrite handleCalibrationMenuState_halves.
  assert (Hgate : menu_gate hw w = bump w).
  { unfold menu_gate. rewrite Hg. cbn [digitalRead]. rewrite Hpin.
    reflexivity. }
  rewrite Hgate, menu_detect_gated, menu_text_ctl by exact Hg.
  unfold menu_ctl. cbn. rewrite Hg. reflexivity.
Qed.

Lemma menu_ctl_eq w c g s t :
  menu_ctl w = (c, g, s, t) ->
  currentState w = c /\ menu_isWaitingForButtonRelease w = g /\
  menu_buttonPressStartTime w = s /\ tick w = t.
Proof. unfold menu_ctl. intros H. injection H as <- <- <- <-. auto. Qed.

(** Holding the button: [k] invocations that find it down do not disturb
    a press being timed. *)
Lemma menu_hold hw : forall k w,
  menu_isWaitingForButtonRelease w = false ->
  menu_buttonPressStartTime w <> 0 ->
  (forall i, (i < k)%nat -> pin (hw (tick w + i)%nat) = LOW) ->
  menu_ctl (menuRun hw k w) =
  (currentState w, false, menu_buttonPressStartTime w, (tick w + k)%nat).
Proof.
  induction k as [| k IH]; intros w Hg Hs Hlow.
  - cbn [menuRun]. unfold menu_ctl. rewrite Hg, Nat.add_0_r. reflexivity.
  - cbn [menuRun].
    pose proof (menu_step hw w Hg) as Hstep. cbv zeta in Hstep.
    pose proof (Hlow 0%nat ltac:(lia)) as Hnow.
    rewrite Nat.add_0_r in Hnow. rewrite Hnow in Hstep.
    apply Z.eqb_neq in Hs. rewrite Hs in Hstep. apply Z.eqb_neq in Hs.
    apply menu_ctl_eq in Hstep. destruct Hstep as (Hc & Hg' & Hs' & Ht).
    rewrite IH.
    + rewrite Hc, Hs', Ht. f_equal. lia.
    + exact Hg'.
    + rewrite Hs'. exact Hs.
    + intros i Hi. rewrite Ht.
      replace (S (tick w) + i)%nat with (tick w + S i)%nat by lia.
      apply Hlow. lia.
Qed.

Lemma menuRun_app hw n m w :
  menuRun hw (n + m) w = menuRun hw m (menuRun hw n w).
Proof.
  revert w. induction n as [| n IH]; intros w; [reflexivity |].
  cbn [Nat.add menuRun]. apply IH.
Qed.

(** X4.  A press in the calibration menu, past the release gate and with
    no press being timed: the invocation that finds the button down
    records its clock read [t0] (non-zero), [k] further invocations find
    it down, the next one finds it up and reads the clock [t1].  Then the
    timer is cleared and the duration [t1 - t0] (modulo 2^32) decides:
    below 50 ms the state stays, from 50 to below 2000 ms it becomes
    Calibrating, from 2000 ms on it becomes Purging. *)
Theorem X4_menu_press_cycle hw k w
    (Hg : menu_isWaitingForButtonRelease w = false)
    (Hs : menu_buttonPressStartTime w = 0)
    (Hdown : pin (hw (tick w)) = LOW)
    (Ht0 : u32 (ms (hw (S (tick w)))) <> 0)
    (Hheld : forall i, (i < k)%nat -> pin (hw (tick w + 2 + i)%nat) = LOW)
    (Hup : pin (hw (tick w + 2 + k)%nat) = HIGH) :
  let t0 := u32 (ms (hw (S (tick w)))) in
  let t1 := u32 (ms (hw (tick w + 3 + k)%nat)) in
  let d := u32 (t1 - t0) in
  let w' := menuRun hw (1 + (k + 1)) w in
  menu_buttonPressStartTime w' = 0 /\
  tick w' = (tick w + 4 + k)%nat /\
  currentState w' = menuChoice d (currentState w) /\
  (d < 50 -> currentState w' = currentState w) /\
  (50 <= d < 2000 -> currentState w' = Calibrating) /\
  (2000 <= d -> currentState w' = Purging).
Proof.
  intros t0 t1 d w'.
  assert (Hctl : menu_ctl w' =
                 (menuChoice d (currentState w), false, 0, (tick w + 4 + k)%nat)).
  { subst w'.
    change (menuRun hw (1 + (k + 1)) w)
      with (menuRun hw (k + 1) (handleCalibrationMenuState hw w)).
    pose proof (menu_step hw w Hg) as H1. cbv zeta in H1.
    rewrite Hdown, Hs in H1. cbn [Z.eqb] in H1. fold t0 in H1.
    apply menu_ctl_eq in H1. destruct H1 as (Hc1 & Hg1 & Hs1 & Ht1).
    set (w1 := handleCalibrationMenuState hw w) in *.
    rewrite menuRun_app.
    pose proof (menu_hold hw k w1 Hg1 ltac:(rewrite Hs1; exact Ht0)) as H2.
    rewrite Ht1, Hs1, Hc1 in H2.
    assert (Hlow : forall i, (i < k)%nat -> pin (hw (S (S (tick w)) + i)%nat) = LOW).
    { intros i Hi. replace (S (S (tick w)) + i)%nat with (tick w + 2 + i)%nat
        by lia. apply Hheld. exact Hi. }
    specialize (H2 Hlow). apply menu_ctl_eq in H2.
    destruct H2 as (Hc2 & Hg2 & Hs2 & Ht2).
    set (w2 := menuRun hw k w1) in *. cbn [menuRun].
    pose proof (menu_step hw w2 Hg2) as H3. cbv zeta in H3.
    rewrite Ht2, Hs2, Hc2 in H3.
    replace (S (S (tick w)) + k)%nat with (tick w + 2 + k)%nat in H3 by lia.
    rewrite Hup in H3.
    pose proof (u32_range (ms (hw (S (tick w))))) as Hr. fold t0 in Hr.
    assert (Hpos : (0 <? t0) = true) by (apply Z.ltb_lt; lia).
    rewrite Hpos in H3.
    replace (S (tick w + 2 + k)) with (tick w + 3 + k)%nat in H3 by lia.
    fold t1 in H3. fold d in H3. rewrite H3. f_equal. lia. }
  apply menu_ctl_eq in Hctl. destruct Hctl as (Hc & _ & Hs' & Ht).
  destruct (menuChoice_spec d (currentState w)) as (B1 & B2 & B3).
  repeat split; try assumption; intros H; rewrite Hc; auto.
Qed.

Lemma X4_menu_press_cycle_witness :
  currentState (menuRun menu_short_press 4 in_menu) = Calibrating.
Proof.
  assert (Hheld : forall i, (i < 2)%nat ->
            pin (menu_short_press (tick in_menu + 2 + i)%nat) = LOW).
  { intros i Hi. destruct i as [| [| i]]; [reflexivity | reflexivity | lia]. }
  apply (proj1 (proj2 (proj2 (proj2 (proj2
           (X4_menu_press_cycle menu_short_press 2 in_menu eq_refl eq_refl
              eq_refl ltac:(discriminate) Hheld eq_refl)))))).
  split; [discriminate | reflexivity].
Defined.

(** ** Who changes what *)

Ltac by_cases := world_simpl; repeat (branch; world_simpl); reflexivity.

Lemma menu_gate_outside hw w :
  outside_menu (menu_gate hw w) = outside_menu w /\
  currentState (menu_gate hw w) = currentState w /\
  (menu_isWaitingForButtonRelease w = false ->
   menu_isWaitingForButtonRelease (menu_gate hw w) = false).
Proof.
  unfold menu_gate, outside_menu, button_vars, purge_vars.
  split; [by_cases |]. split; [by_cases |].
  intros Hg. rewrite Hg. exact Hg.
Qed.

Lemma menu_detect_outside hw w :
  outside_menu (menu_detect hw w) = outside_menu w /\
  (currentState (menu_detect hw w) = currentState w \/
   currentState (menu_detect hw w) = Calibrating \/
   currentState (menu_detect hw w) = Purging) /\
  menu_isWaitingForButtonRelease (menu_detect hw w)
    = menu_isWaitingForButtonRelease w.
Proof.
  unfold menu_detect, outside_menu, button_vars, purge_vars.
  split; [by_cases |]. split; [| by_cases].
  world_simpl; repeat (branch; world_simpl); auto.
Qed.

Lemma handleCalibrationMenuState_outside hw w :
  let w' := handleCalibrationMenuState hw w in
  outside_menu w' = outside_menu w /\
  (currentState w' = currentState w \/ currentState w' = Calibrating \/
   currentState w' = Purging) /\
  (menu_isWaitingForButtonRelease w = false ->
   menu_isWaitingForButtonRelease w' = false).
Proof.
  intros w'. subst w'. rewrite handleCalibrationMenuState_halves.
  destruct (menu_gate_outside hw w) as (G1 & G2 & G3).
  destruct (menu_detect_outside hw (menu_text (menu_gate hw w)))
    as (D1 & D2 & D3).
  split; [rewrite D1, <- G1; reflexivity |].
  split.
  - change (currentState (menu_text (menu_gate hw w)))
      with (currentState (menu_gate hw w)) in D2.
    rewrite G2 in D2. exact D2.
  - intros Hg. rewrite D3. apply G3. exact Hg.
Qed.

Lemma handlePurgingState_outside hw w :
  let w' := handlePurgingState hw w in
  outside_purge w' = outside_purge w /\
  (currentState w' = currentState w \/ currentState w' = Idle).
Proof.
  intros w'. subst w'.
  unfold handlePurgingState, outside_purge, button_vars, menu_vars.
  split; [by_cases |].
  world_simpl; repeat (branch; world_simpl); auto.
Qed.

Lemma stepper_runSpeed_vars hw w :
  let w' := stepper_runSpeed hw w in
  currentState w' = currentState w /\ firmware_vars w' = firmware_vars w /\
  eeprom w' = eeprom w.
Proof.
  intros w'. subst w'.
  unfold stepper_runSpeed, firmware_vars, button_vars, menu_vars, purge_vars.
  repeat split; by_cases.
Qed.

Lemma runMotorLoop_vars hw fuel : forall w w',
  runMotorLoop hw fuel w = Done tt w' ->
  currentState w' = currentState w /\ firmware_vars w' = firmware_vars w /\
  eeprom w' = eeprom w.
Proof.
  induction fuel as [| fuel IH]; intros w w' H; cbn [runMotorLoop] in H;
    destruct (stepper_distanceToGo w =? 0); try discriminate H;
    try (injection H as <-; auto).
  apply IH in H. destruct H as (H1 & H2 & H3).
  destruct (stepper_runSpeed_vars hw w) as (S1 & S2 & S3).
  repeat split; congruence.
Qed.

Lemma queryLoop_vars hw fuel : forall w m w',
  queryLoop hw fuel w = Done m w' ->
  currentState w' = currentState w /\ firmware_vars w' = firmware_vars w /\
  eeprom w' = eeprom w /\ stepper w' = stepper w.
Proof.
  induction fuel as [| fuel IH]; intros w m w' H; [discriminate H |].
  cbn [queryLoop analogRead digitalRead] in H.
  match type of H with
  | match ?l with LOW => _ | HIGH => _ end = _ => destruct l
  end.
  - injection H as _ <-. repeat split.
  - apply IH in H. exact H.
Qed.

Lemma storeCalibrationValue_vars m n w w' :
  storeCalibrationValue m n w = Done tt w' ->
  currentState w' = currentState w /\ firmware_vars w' = firmware_vars w /\
  stepper w' = stepper w /\ lcd w' = lcd w /\ tick w' = tick w /\
  forall a, a <> CALIBRATION_ADDR -> eeprom w' a = eeprom w a.
Proof.
  unfold storeCalibrationValue. intros H.
  destruct (float_to_uint8 _) as [b |]; [| discriminate H].
  injection H as <-.
  split; [| split; [| split; [| split; [| split]]]];
    try (unfold EEPROM_update; destruct (eeprom w CALIBRATION_ADDR =? b);
         reflexivity).
  intros a Ha. apply EEPROM_update_other. exact Ha.
Qed.

Lemma handleCalibratingState_vars hw fuel w w' :
  handleCalibratingState hw fuel w = Done tt w' ->
  currentState w' = Idle /\ firmware_vars w' = firmware_vars w /\
  forall a, a <> CALIBRATION_ADDR -> eeprom w' a = eeprom w a.
Proof.
  unfold handleCalibratingState. intros H.
  destruct (runCalibrationMotor hw fuel 10 w) as [[] w1 | |] eqn:H1;
    cbn [bind] in H; try discriminate H.
  destruct (queryForMeasuredLiquid hw fuel w1) as [m w2 | |] eqn:H2;
    cbn [bind] in H; try discriminate H.
  destruct (storeCalibrationValue m 10 w2) as [[] w3 | |] eqn:H3;
    cbn [bind] in H; try discriminate H.
  injection H as <-.
  unfold runCalibrationMotor in H1. apply runMotorLoop_vars in H1.
  unfold queryForMeasuredLiquid in H2. apply queryLoop_vars in H2.
  apply storeCalibrationValue_vars in H3.
  destruct H1 as (_ & A2 & A3). destruct H2 as (_ & B2 & B3 & _).
  destruct H3 as (_ & C2 & _ & _ & _ & C6).
  split; [reflexivity |]. split.
  - change (firmware_vars (set_currentState Idle w3)) with (firmware_vars w3).
    exact (eq_trans C2 (eq_trans B2 A2)).
  - intros a Ha. cbn [eeprom set_currentState].
    rewrite (C6 a Ha), B3. exact (f_equal (fun f => f a) A3).
Qed.

(** What an iteration of [loop] changes, by the state it dispatches. *)
Lemma loop_effects hw fuel w w' :
  loop hw fuel w = Done tt w' ->
  button_vars w' = button_vars w /\
  (forall a, a <> CALIBRATION_ADDR -> eeprom w' a = eeprom w a) /\
  match currentState w with
  | Idle | Running | Canceled =>
      currentState w' = currentState w /\ menu_vars w' = menu_vars w /\
      purge_vars w' = purge_vars w /\ eeprom w' = eeprom w /\
      stepper w' = stepper w /\ tick w' = tick w
  | CalibrationMenu =>
      (currentState w' = CalibrationMenu \/ currentState w' = Calibrating \/
       currentState w' = Purging) /\
      purge_vars w' = purge_vars w /\ eeprom w' = eeprom w /\
      stepper w' = stepper w /\
      (menu_isWaitingForButtonRelease w = false ->
       menu_isWaitingForButtonRelease w' = false)
  | Calibrating =>
      currentState w' = Idle /\ menu_vars w' = menu_vars w /\
      purge_vars w' = purge_vars w
  | Purging =>
      (currentState w' = Purging \/ currentState w' = Idle) /\
      menu_vars w' = menu_vars w /\ eeprom w' = eeprom w /\
      stepper w' = stepper w
  end.
Proof.
  unfold loop.
  set (v := if negb (SystemState_eqb (currentState w) (previousState w))
            then _ else w).
  assert (Hv : currentState v = currentState w /\
               button_vars v = button_vars w /\ menu_vars v = menu_vars w /\
               purge_vars v = purge_vars w /\ eeprom v = eeprom w /\
               stepper v = stepper w /\ tick v = tick w).
  { subst v. destruct (negb _); repeat split. }
  destruct Hv as (Vc & Vb & Vm & Vp & Ve & Vs & Vt). clearbody v.
  rewrite <- Vc, <- Vb, <- Vm, <- Vp, <- Ve, <- Vs, <- Vt.
  destruct (currentState v) eqn:Hc; intros H;
    try (injection H as <-).
  - repeat split. exact Hc.
  - destruct (handleCalibrationMenuState_outside hw v) as (O & T & G).
    unfold outside_menu, button_vars, purge_vars in O.
    injection O as _ O1 O2 O3 O4 O5 O6. rewrite Hc in T.
    unfold button_vars, menu_vars, purge_vars in *.
    injection Vm as Vg _.
    repeat split; try congruence. intros Hw. apply G. congruence.
  - apply handleCalibratingState_vars in H. destruct H as (H1 & H2 & H3).
    unfold firmware_vars, button_vars, menu_vars, purge_vars in *.
    injection H2 as _ F1 F2 F3 F4 F5 F6.
    repeat split; try congruence. exact H3.
  - destruct (handlePurgingState_outside hw v) as (O & T).
    unfold outside_purge, button_vars, menu_vars in O.
    injection O as _ O1 O2 O3 O4 O5 O6. rewrite Hc in T.
    unfold button_vars, menu_vars, purge_vars in *.
    repeat split; try congruence.
  - repeat split. exact Hc.
  - repeat split. exact Hc.
Qed.

(** What a run of the interrupt handler does to [currentState]. *)
Lemma buttonPressISR_currentState hw w :
  let c := currentState w in
  let c' := currentState (buttonPressISR hw w) in
  c' = c \/ c' = CalibrationMenu \/
  (c = Idle /\ c' = Running) \/ (c = Running /\ c' = Idle).
Proof.
  intros c c'. subst c c'.
  destruct (pin (hw (tick w))) eqn:Hpin; destruct (isButtonPressed w) eqn:Hp.
  - rewrite buttonPressISR_idle by auto. left. reflexivity.
  - rewrite buttonPressISR_press by auto. left. reflexivity.
  - rewrite buttonPressISR_release by auto.
    destruct (classifyPress _); cbn [pressEffect]; world_simpl; auto.
    destruct (currentState w) eqn:Hc; world_simpl; auto.
  - rewrite buttonPressISR_idle by auto. left. reflexivity.
Qed.

Lemma step_allowed hw e w w' :
  step hw e w = Done tt w' ->
  allowed (currentState w) (currentState w') = true.
Proof.
  destruct e as [fuel |]; cbn [step]; intros H.
  - apply loop_effects in H. destruct H as (_ & _ & H).
    destruct (currentState w);
      repeat match goal with
             | H : _ /\ _ |- _ => destruct H as (H & _)
             | H : _ \/ _ |- _ => destruct H as [H | H]
             end; rewrite H; reflexivity.
  - injection H as <-.
    destruct (buttonPressISR_currentState hw w)
      as [H | [H | [(Hc & H) | (Hc & H)]]]; rewrite H; try rewrite Hc;
      try reflexivity; destruct (currentState w); reflexivity.
Qed.

(** X5.  The transition table of the sketch.  A step of the system (an
    iteration of [loop] that returns, or a run of the interrupt handler)
    changes [currentState] only along these edges: Idle to Running or
    CalibrationMenu; CalibrationMenu to Calibrating or Purging;
    Calibrating to Idle or CalibrationMenu; Purging to Idle or
    CalibrationMenu; Running to Idle or CalibrationMenu; Canceled to
    CalibrationMenu.  An iteration of [loop] that dispatches Calibrating
    and returns always ends in Idle. *)
Theorem X5_transition_table hw e w w'
    (H : step hw e w = Done tt w') :
  allowed (currentState w) (currentState w') = true /\
  (forall fuel, e = LoopIteration fuel -> currentState w = Calibrating ->
     currentState w' = Idle).
Proof.
  split; [exact (step_allowed hw e w w' H) |].
  intros fuel -> Hc. cbn [step] in H.
  apply loop_effects in H. destruct H as (_ & _ & H).
  rewrite Hc in H. apply H.
Qed.

Lemma X5_transition_table_witness :
  exists w',
    step (released_at 1700) (LoopIteration 0)
      (set_menu_buttonPressStartTime 1000 in_menu) = Done tt w' /\
    currentState w' = Calibrating /\
    allowed CalibrationMenu (currentState w') = true.
Proof.
  eassert (H : step (released_at 1700) (LoopIteration 0)
                 (set_menu_buttonPressStartTime 1000 in_menu) = Done tt _)
    by (vm_compute; reflexivity).
  eexists. split; [exact H |]. split; [reflexivity |].
  exact (proj1 (X5_transition_table _ _ _ _ H)).
Defined.

(** X6.  Canceled is never entered: a run of the system over any events,
    with any hardware, from a state other than Canceled (the sketch boots
    in Idle) does not end in Canceled. *)
Theorem X6_Canceled_unreachable hw es w w'
    (Hstart : currentState w <> Canceled)
    (Hrun : runEvents hw es w = Done tt w') :
  currentState w' <> Canceled.
Proof.
  revert w Hstart Hrun.
  induction es as [| e es IH]; intros w Hc H; cbn [runEvents] in H.
  - injection H as <-. exact Hc.
  - destruct (step hw e w) as [[] w1 | |] eqn:Hs; cbn [bind] in H;
      try discriminate H.
    apply (IH w1); [| exact H].
    apply step_allowed in Hs. intros Hc1. rewrite Hc1 in Hs.
    destruct (currentState w); try discriminate Hs. apply Hc. reflexivity.
Qed.

Lemma X6_Canceled_unreachable_witness :
  exists w',
    runEvents (press_release 1200)
      [PinChange; PinChange; LoopIteration 0] (boot (fun _ => 255))
      = Done tt w' /\
    currentState w' = Running /\ currentState w' <> Canceled.
Proof.
  eassert (H : runEvents (press_release 1200)
                 [PinChange; PinChange; LoopIteration 0]
                 (boot (fun _ => 255)) = Done tt _)
    by (vm_compute; reflexivity).
  eexists. split; [exact H |]. split; [reflexivity |].
  assert (Hstart : currentState (boot (fun _ => 255)) <> Canceled)
    by discriminate.
  exact (X6_Canceled_unreachable _ _ _ _ Hstart H).
Defined.

(** X7.  Who owns what.  For a step of the system that returns: the press
    variables change only in the interrupt handler; the menu's statics
    only in an iteration dispatching CalibrationMenu, the purge's statics
    only in one dispatching Purging; the EEPROM and the stepper change
    only in an iteration dispatching Calibrating, and no step ever
    changes an EEPROM cell other than the calibration address; the
    display is written by [loop] only. *)
Theorem X7_ownership hw e w w'
    (H : step hw e w = Done tt w') :
  (button_vars w' <> button_vars w -> e = PinChange) /\
  (menu_vars w' <> menu_vars w ->
     exists fuel, e = LoopIteration fuel /\ currentState w = CalibrationMenu) /\
  (purge_vars w' <> purge_vars w ->
     exists fuel, e = LoopIteration fuel /\ currentState w = Purging) /\
  (eeprom w' <> eeprom w \/ stepper w' <> stepper w ->
     exists fuel, e = LoopIteration fuel /\ currentState w = Calibrating) /\
  (forall a, a <> CALIBRATION_ADDR -> eeprom w' a = eeprom w a) /\
  (lcd w' <> lcd w -> exists fuel, e = LoopIteration fuel).
Proof.
  destruct e as [fuel |]; cbn [step] in H.
  - apply loop_effects in H. destruct H as (Hb & He & H).
    split; [intros N; contradiction |].
    split; [| split; [| split; [| split; [exact He |]]]].
    + intros N. exists fuel. split; [reflexivity |].
      destruct (currentState w); try reflexivity; exfalso; apply N;
        tauto.
    + intros N. exists fuel. split; [reflexivity |].
      destruct (currentState w); try reflexivity; exfalso; apply N;
        tauto.
    + intros N. exists fuel. split; [reflexivity |].
      destruct (currentState w); try reflexivity; exfalso;
        destruct N as [N | N]; apply N; tauto.
    + intros _. exists fuel. reflexivity.
  - injection H as <-.
    destruct (buttonPressISR_frame hw w) as (F1 & F2 & _ & F4 & F5 & F6).
    split; [reflexivity |].
    split; [intros N; contradiction |].
    split; [intros N; contradiction |].
    split; [intros [N | N]; contradiction |].
    split; [intros a _; rewrite F4; reflexivity |].
    intros N. contradiction.
Qed.

Lemma X7_ownership_witness :
  exists w',
    step (confirming 216) (LoopIteration 4001)
      (entering Calibrating CalibrationMenu) = Done tt w' /\
    eeprom w' CALIBRATION_ADDR = 2 /\ eeprom w' 1 = 255.
Proof.
  eassert (H : step (confirming 216) (LoopIteration 4001)
                 (entering Calibrating CalibrationMenu) = Done tt _)
    by (vm_compute; reflexivity).
  eexists. split; [exact H |]. split; [reflexivity |].
  apply (proj1 (proj2 (proj2 (proj2 (proj2 (X7_ownership _ _ _ _ H))))) 1).
  discriminate.
Defined.

(** X8.  The menu's release gate.  While the gate is closed, an
    invocation that finds the button down times nothing and changes no
    state; and once the gate has opened no step of the system closes it
    again, so it holds back a held button only the first time the menu is
    shown after power-up. *)
Theorem X8_menu_release_gate hw :
  (forall w,
     menu_isWaitingForButtonRelease w = true -> pin (hw (tick w)) = LOW ->
     menu_ctl (handleCalibrationMenuState hw w) =
     (currentState w, true, menu_buttonPressStartTime w, S (tick w))) /\
  (forall es w w',
     menu_isWaitingForButtonRelease w = false ->
     runEvents hw es w = Done tt w' ->
     menu_isWaitingForButtonRelease w' = false).
Proof.
  split; [intros w; apply menu_step_gated |].
  induction es as [| e es IH]; intros w w' Hg H; cbn [runEvents] in H.
  - injection H as <-. exact Hg.
  - destruct (step hw e w) as [[] w1 | |] eqn:Hs; cbn [bind] in H;
      try discriminate H.
    apply (IH w1 w'); [| exact H].
    destruct e as [fuel |]; cbn [step] in Hs.
    + apply loop_effects in Hs. destruct Hs as (_ & _ & Hs).
      unfold menu_vars in Hs.
      destruct (currentState w);
        try (destruct Hs as (_ & Hm & _); injection Hm as Hm _; congruence).
      destruct Hs as (_ & _ & _ & _ & Hm). apply Hm. exact Hg.
    + injection Hs as <-.
      destruct (buttonPressISR_frame hw w) as (Hm & _).
      unfold menu_vars in Hm. injection Hm as Hm _. congruence.
Qed.

Lemma X8_menu_release_gate_witness :
  menu_ctl (handleCalibrationMenuState (confirming 0)
              (entering CalibrationMenu CalibrationMenu))
  = (CalibrationMenu, true, 0, 1%nat).
Proof.
  apply (proj1 (X8_menu_release_gate (confirming 0))
           (entering CalibrationMenu CalibrationMenu) eq_refl eq_refl).
Defined.

(** ** The motor run *)

Lemma int32_add_l a b : int32 (int32 a + b) = int32 (a + b).
Proof.
  unfold int32. change (2 ^ 32) with 4294967296.
  change (2 ^ 31) with 2147483648. f_equal.
  replace ((a + 2147483648) mod 4294967296 - 2147483648 + b + 2147483648)
    with ((a + 2147483648) mod 4294967296 + b) by lia.
  rewrite Zplus_mod_idemp_l. f_equal. lia.
Qed.

Lemma int32_sub_r a b : int32 (a - int32 b) = int32 (a - b).
Proof.
  unfold int32. change (2 ^ 32) with 4294967296.
  change (2 ^ 31) with 2147483648. f_equal.
  replace (a - ((b + 2147483648) mod 4294967296 - 2147483648) + 2147483648)
    with (a + 4294967296 - (b + 2147483648) mod 4294967296) by lia.
  rewrite Zminus_mod_idemp_r. f_equal. lia.
Qed.

Lemma int32_sub_l a b : int32 (int32 a - b) = int32 (a - b).
Proof.
  replace (int32 a - b) with (int32 a + - b) by lia.
  rewrite int32_add_l. f_equal; lia.
Qed.

(** One poll of the stepper with a positive speed. *)
Lemma stepper_runSpeed_forward hw w :
  0 < speed (stepper w) ->
  let w' := stepper_runSpeed hw w in
  tick w' = S (tick w) /\ speed (stepper w') = speed (stepper w) /\
  targetPos (stepper w') = targetPos (stepper w) /\
  currentPos (stepper w') =
    (if step_due (hw (tick w)) then int32 (currentPos (stepper w) + 1)
     else currentPos (stepper w)) /\
  stepper_distanceToGo w' =
    (if step_due (hw (tick w)) then int32 (stepper_distanceToGo w - 1)
     else stepper_distanceToGo w).
Proof.
  intros Hs w'. subst w'. unfold stepper_runSpeed, stepper_distanceToGo.
  assert (E0 : (speed (stepper w) =? 0) = false) by (apply Z.eqb_neq; lia).
  assert (E1 : (0 <? speed (stepper w)) = true) by (apply Z.ltb_lt; lia).
  rewrite E0, E1. cbn [orb].
  destruct (step_due (hw (tick w))); cbn [negb]; world_simpl;
    cbn [speed targetPos currentPos maxSpeed]; repeat split.
  rewrite int32_sub_l, int32_sub_r. f_equal. lia.
Qed.

(** When the polling loop returns the stepper is at its target, which the
    loop never moves. *)
Lemma runMotorLoop_at_target hw fuel : forall w w',
  0 < speed (stepper w) ->
  runMotorLoop hw fuel w = Done tt w' ->
  stepper_distanceToGo w' = 0 /\
  targetPos (stepper w') = targetPos (stepper w) /\ lcd w' = lcd w.
Proof.
  induction fuel as [| fuel IH]; intros w w' Hs H; cbn [runMotorLoop] in H;
    destruct (stepper_distanceToGo w =? 0) eqn:E; try discriminate H;
    try (injection H as <-; apply Z.eqb_eq in E; auto).
  destruct (stepper_runSpeed_forward hw w Hs) as (_ & S2 & S3 & _).
  apply IH in H; [| rewrite S2; exact Hs].
  destruct H as (H1 & H2 & H3). rewrite H2, S3, H3.
  repeat split; try assumption.
  unfold stepper_runSpeed. by_cases.
Qed.

(** The stepper as [runCalibrationMotor] sets it up. *)
Lemma motor_setup w steps :
  let v := centerTextOnLCD "CALIBRATION" 0
             (stepper_move steps
                (stepper_setSpeed 400 (stepper_setMaxSpeed 400 w))) in
  speed (stepper v) = 400 /\
  currentPos (stepper v) = currentPos (stepper w) /\
  targetPos (stepper v) = int32 (currentPos (stepper w) + steps) /\
  stepper_distanceToGo v = int32 steps /\
  tick v = tick w /\
  lcd v = lcd w ++ [LcdSetCursor 2 0; LcdPrint "CALIBRATION"].
Proof.
  intros v. subst v.
  unfold stepper_distanceToGo, stepper_move, stepper_setSpeed,
    stepper_setMaxSpeed.
  world_simpl. cbn [speed targetPos currentPos maxSpeed].
  split; [reflexivity |]. split; [reflexivity |]. split; [reflexivity |].
  split; [rewrite int32_sub_l; f_equal; lia |]. split; [reflexivity |].
  rewrite <- app_assoc. reflexivity.
Qed.

(** X9.  When [runCalibrationMotor] returns, whatever the hardware did:
    the stepper's distance to go is 0, its target is the position it had
    plus [totalRevolutions * 400] (as a 16-bit product), and the display
    has received exactly the centred text "CALIBRATION". *)
Theorem X9_motor_at_target hw fuel n w w'
    (H : runCalibrationMotor hw fuel n w = Done tt w') :
  stepper_distanceToGo w' = 0 /\
  targetPos (stepper w') =
    int32 (currentPos (stepper w) + int16 (n * STEPS_PER_REVOLUTION)) /\
  lcd w' = lcd w ++ [LcdSetCursor 2 0; LcdPrint "CALIBRATION"].
Proof.
  unfold runCalibrationMotor in H.
  destruct (motor_setup w (int16 (n * STEPS_PER_REVOLUTION)))
    as (Hs & _ & Ht & _ & _ & Hl).
  apply runMotorLoop_at_target in H; [| rewrite Hs; lia].
  destruct H as (H1 & H2 & H3).
  rewrite H2, H3, Ht, Hl. auto.
Qed.

Lemma X9_motor_at_target_witness :
  exists w',
    runCalibrationMotor (confirming 0) 400 1 (boot (fun _ => 255))
      = Done tt w' /\
    stepper_distanceToGo w' = 0 /\ targetPos (stepper w') = 400.
Proof.
  eassert (H : runCalibrationMotor (confirming 0) 400 1
                 (boot (fun _ => 255)) = Done tt _)
    by (vm_compute; reflexivity).
  eexists. split; [exact H |].
  destruct (X9_motor_at_target _ _ _ _ _ H) as (H1 & H2 & _).
  split; [exact H1 | exact H2].
Defined.

Lemma int32_range z : -2147483648 <= int32 z < 2147483648.
Proof.
  unfold int32. change (2 ^ 32) with 4294967296.
  change (2 ^ 31) with 2147483648.
  pose proof (Z.mod_pos_bound (z + 2147483648) 4294967296 ltac:(lia)). lia.
Qed.

(** With the step timer due at every poll, a distance of [n] steps ahead
    takes [n] polls. *)
Lemma runMotorLoop_runs hw : forall n w fuel,
  0 < speed (stepper w) ->
  stepper_distanceToGo w = Z.of_nat n ->
  (forall i, (i < n)%nat -> step_due (hw (tick w + i)%nat) = true) ->
  (n <= fuel)%nat ->
  exists w',
    runMotorLoop hw fuel w = Done tt w' /\ tick w' = (tick w + n)%nat /\
    int32 (currentPos (stepper w')) =
      int32 (currentPos (stepper w) + Z.of_nat n).
Proof.
  induction n as [| n IH]; intros w fuel Hs Hd Hdue Hf.
  - exists w.
    assert (E : (stepper_distanceToGo w =? 0) = true)
      by (rewrite Hd; reflexivity).
    split; [destruct fuel; cbn [runMotorLoop]; rewrite E; reflexivity |].
    split; [lia |]. f_equal. cbn [Z.of_nat]. lia.
  - destruct fuel as [| fuel]; [lia |]. cbn [runMotorLoop].
    assert (E : (stepper_distanceToGo w =? 0) = false)
      by (rewrite Hd; apply Z.eqb_neq; lia).
    rewrite E.
    destruct (stepper_runSpeed_forward hw w Hs) as (S1 & S2 & _ & S4 & S5).
    pose proof (Hdue 0%nat ltac:(lia)) as Hnow.
    rewrite Nat.add_0_r in Hnow. rewrite Hnow in S4, S5.
    pose proof (int32_range (targetPos (stepper w) - currentPos (stepper w)))
      as Hr. fold (stepper_distanceToGo w) in Hr.
    destruct (IH (stepper_runSpeed hw w) fuel) as (w' & R1 & R2 & R3).
    + rewrite S2. exact Hs.
    + rewrite S5, Hd. rewrite int32_small by lia. lia.
    + intros i Hi. rewrite S1.
      replace (S (tick w) + i)%nat with (tick w + S i)%nat by lia.
      apply Hdue. lia.
    + lia.
    + exists w'. split; [exact R1 |]. split; [rewrite R2, S1; lia |].
      rewrite R3, S4, int32_add_l. f_equal. lia.
Qed.

(** X10.  With the step timer due at every poll, a run of [n] revolutions
    (0 to 81, so that [n * 400] fits the 16-bit product) returns after
    exactly [n * 400] polls, given that much fuel, with the stepper
    [n * 400] steps further (modulo 2^32); [runCalibrationMotor 0] returns
    at once. *)
Theorem X10_motor_run_completes hw fuel n w
    (Hn : 0 <= n <= 81)
    (Hdue : forall i, (i < Z.to_nat (n * 400))%nat ->
              step_due (hw (tick w + i)%nat) = true)
    (Hf : (Z.to_nat (n * 400) <= fuel)%nat) :
  exists w',
    runCalibrationMotor hw fuel n w = Done tt w' /\
    tick w' = (tick w + Z.to_nat (n * 400))%nat /\
    int32 (currentPos (stepper w')) =
      int32 (currentPos (stepper w) + n * 400).
Proof.
  unfold runCalibrationMotor. unfold STEPS_PER_REVOLUTION.
  rewrite int16_small by lia.
  destruct (motor_setup w (n * 400)) as (Hs & Hc & _ & Hd & Ht & _).
  set (v := centerTextOnLCD _ _ _) in *.
  destruct (runMotorLoop_runs hw (Z.to_nat (n * 400)) v fuel)
    as (w' & R1 & R2 & R3).
  - rewrite Hs. lia.
  - rewrite Hd, int32_small by lia. lia.
  - intros i Hi. rewrite Ht. apply Hdue. exact Hi.
  - exact Hf.
  - exists w'. split; [exact R1 |]. split; [rewrite R2, Ht; reflexivity |].
    rewrite R3, Hc. f_equal. lia.
Qed.

Lemma X10_motor_run_completes_witness :
  exists w',
    runCalibrationMotor (confirming 0) 800 2 (boot (fun _ => 255))
      = Done tt w' /\ tick w' = 800%nat.
Proof.
  destruct (X10_motor_run_completes (confirming 0) 800 2
              (boot (fun _ => 255)) ltac:(lia)
              ltac:(intros; reflexivity) ltac:(cbn; lia))
    as (w' & H1 & H2 & _).
  exists w'. split; [exact H1 | exact H2].
Defined.

(** ** The volume prompt *)

(** The prompt loop ends at the first poll that finds the button down and
    returns the reading of that same iteration. *)
Lemma queryLoop_first_low hw : forall k w fuel,
  (k < fuel)%nat ->
  (forall i, (i < k)%nat -> pin (hw (tick w + 2 * i + 1)%nat) = HIGH) ->
  pin (hw (tick w + 2 * k + 1)%nat) = LOW ->
  let m := int16 (map (adc (hw (tick w + 2 * k)%nat)) 0 1023 1 20) in
  exists w' shown,
    queryLoop hw fuel w = Done m w' /\
    tick w' = (tick w + 2 * k + 2)%nat /\
    lcd w' = lcd w ++ shown ++
             [LcdSetCursor 0 1; LcdPrintInt m; LcdPrint " ml   "] /\
    eeprom w' = eeprom w /\ stepper w' = stepper w /\
    currentState w' = currentState w.
Proof.
  induction k as [| k IH]; intros w fuel Hk Hhigh Hlow m;
    (destruct fuel as [| fuel]; [lia |]);
    cbn [queryLoop analogRead digitalRead]; world_simpl.
  - replace (tick w + 2 * 0 + 1)%nat with (S (tick w)) in Hlow by lia.
    rewrite Hlow. subst m.
    replace (tick w + 2 * 0)%nat with (tick w) by lia.
    eexists. exists []. split; [reflexivity |]. world_simpl.
    split; [lia |]. split; [rewrite <- !app_assoc; reflexivity |].
    repeat split.
  - pose proof (Hhigh 0%nat ltac:(lia)) as H0.
    replace (tick w + 2 * 0 + 1)%nat with (S (tick w)) in H0 by lia.
    rewrite H0.
    match goal with
    | |- context [queryLoop hw fuel ?v] =>
        destruct (IH v fuel) as (w' & shown & R1 & R2 & R3 & R4 & R5 & R6)
    end.
    + lia.
    + intros i Hi. world_simpl.
      replace (S (S (tick w)) + 2 * i + 1)%nat
        with (tick w + 2 * S i + 1)%nat by lia.
      apply Hhigh. lia.
    + world_simpl.
      replace (S (S (tick w)) + 2 * k + 1)%nat
        with (tick w + 2 * S k + 1)%nat by lia.
      exact Hlow.
    + revert R1 R2 R3 R4 R5 R6. world_simpl.
      replace (S (S (tick w)) + 2 * k)%nat
        with (tick w + 2 * S k)%nat by lia.
      fold m. intros R1 R2 R3 R4 R5 R6.
      exists w'.
      exists ([LcdSetCursor (u8 0) (u8 1);
               LcdPrintInt (int16 (map (adc (hw (tick w))) 0 1023 1 20));
               LcdPrint " ml   "] ++ shown).
      split; [exact R1 |]. split; [lia |].
      split; [rewrite R3, <- !app_assoc; cbn [app]; reflexivity |]. auto.
Qed.

(** X12.  [queryForMeasuredLiquid] polls until the first poll that finds
    the button down ([k] polls found it up before, fuel above [k]); it
    returns the mapped reading of that very iteration, which is also the
    last value it printed; it has cleared the display and shown the prompt
    first, made [2 k + 2] hardware reads, and left the EEPROM, the stepper
    and the state alone. *)
Theorem X12_prompt_returns_shown_value hw k fuel w
    (Hk : (k < fuel)%nat)
    (Hup : forall i, (i < k)%nat -> pin (hw (tick w + 2 * i + 1)%nat) = HIGH)
    (Hdown : pin (hw (tick w + 2 * k + 1)%nat) = LOW) :
  let m := int16 (map (adc (hw (tick w + 2 * k)%nat)) 0 1023 1 20) in
  exists w' shown,
    queryForMeasuredLiquid hw fuel w = Done m w' /\
    tick w' = (tick w + 2 * k + 2)%nat /\
    lcd w' = lcd w ++ [LcdClear; LcdSetCursor 0 0; LcdPrint "Set liquid vol."]
             ++ shown
             ++ [LcdSetCursor 0 1; LcdPrintInt m; LcdPrint " ml   "] /\
    eeprom w' = eeprom w /\ stepper w' = stepper w /\
    currentState w' = currentState w.
Proof.
  intros m. unfold queryForMeasuredLiquid.
  match goal with
  | |- context [queryLoop hw fuel ?v] =>
      destruct (queryLoop_first_low hw k v fuel Hk Hup Hdown)
        as (w' & shown & R1 & R2 & R3 & R4 & R5 & R6)
  end.
  revert R1 R2 R3 R4 R5 R6. world_simpl. fold m.
  intros R1 R2 R3 R4 R5 R6.
  exists w', shown. split; [exact R1 |]. split; [exact R2 |].
  split; [rewrite R3, <- !app_assoc; reflexivity |]. auto.
Qed.

Lemma X12_prompt_returns_shown_value_witness :
  exists w',
    queryForMeasuredLiquid (calibration_bench 540 5) 10 (boot (fun _ => 255))
      = Done 11 w' /\ tick w' = 6%nat.
Proof.
  assert (Hup : forall i, (i < 2)%nat ->
            pin (calibration_bench 540 5
                   (tick (boot (fun _ => 255%Z)) + 2 * i + 1)%nat) = HIGH).
  { intros i Hi. destruct i as [| [| i]]; [reflexivity | reflexivity | lia]. }
  destruct (X12_prompt_returns_shown_value (calibration_bench 540 5) 2 10
              (boot (fun _ => 255)) ltac:(lia) Hup eq_refl)
    as (w' & shown & H1 & H2 & _).
  exists w'. split; [exact H1 | exact H2].
Defined.

(** X13.  The volume scale.  On readings 0..1023 the value offered is
    [x * 19 / 1023 + 1]: it never decreases with the reading, it is 1
    exactly on 0..53, and it is 20 only at the full-scale reading 1023. *)
Theorem X13_volume_scale x y
    (Hx : 0 <= x <= 1023) (Hy : 0 <= y <= 1023) :
  let vol r := int16 (map r 0 1023 1 20) in
  vol x = x * 19 / 1023 + 1 /\
  (x <= y -> vol x <= vol y) /\
  (vol x = 1 <-> x <= 53) /\
  (vol x = 20 <-> x = 1023).
Proof.
  intros vol. subst vol. cbv beta.
  rewrite (map_reading x Hx), (map_reading y Hy).
  split; [reflexivity |].
  split; [intros Hxy; apply Z.add_le_mono_r, Z.div_le_mono; lia |].
  split; split; intros H.
  - assert (Hq : x * 19 / 1023 = 0) by lia.
    apply Z.div_small_iff in Hq; lia.
  - rewrite Z.div_small by lia. reflexivity.
  - assert (Hq : x * 19 / 1023 = 19) by lia.
    destruct (Z.eq_dec x 1023) as [E | N]; [exact E |].
    assert (Hlt : x * 19 / 1023 < 19)
      by (apply Z.div_lt_upper_bound; lia).
    lia.
  - subst x. reflexivity.
Qed.

Lemma X13_volume_scale_witness :
  int16 (map 1022 0 1023 1 20) = 19 /\ int16 (map 54 0 1023 1 20) = 2.
Proof.
  split.
  - rewrite (proj1 (X13_volume_scale 1022 0 ltac:(lia) ltac:(lia))).
    reflexivity.
  - rewrite (proj1 (X13_volume_scale 54 0 ltac:(lia) ltac:(lia))).
    reflexivity.
Defined.

(** ** The stored quotient *)

Lemma zrange_In lo len x :
  lo <= x < lo + Z.of_nat len -> In x (zrange lo len).
Proof.
  intros H. unfold zrange. apply in_map_iff.
  exists (Z.to_nat (x - lo)). split; [lia |].
  apply in_seq. lia.
Qed.

Lemma quotient_ok_small :
  forallb (fun n => forallb (quotient_ok n) (zrange 1 20)) (zrange 0 1001)
  = true.
Proof. vm_compute. reflexivity. Qed.

(** X14.  For revolution counts 0..1000 and volumes 1..20, the binary32
    quotient converted to a byte is the integer quotient [n / m]:
    [storeCalibrationValue] stores it at the calibration address when it
    is at most 255, the fraction being lost (so 0 is stored whenever
    [n < m]), and reaches [EEPROM.update] with a value that has no byte
    when it exceeds 255. *)
Theorem X14_stored_quotient n m w
    (Hn : 0 <= n <= 1000) (Hm : 1 <= m <= 20) :
  (n / m <= 255 ->
     storeCalibrationValue m n w =
       Done tt (EEPROM_update CALIBRATION_ADDR (n / m) w)) /\
  (n < m ->
     storeCalibrationValue m n w = Done tt (EEPROM_update CALIBRATION_ADDR 0 w)) /\
  (255 < n / m -> exists q, storeCalibrationValue m n w = NoByte q w).
Proof.
  pose proof quotient_ok_small as H.
  rewrite forallb_forall in H.
  specialize (H n (zrange_In 0 1001 n ltac:(lia))).
  rewrite forallb_forall in H.
  specialize (H m (zrange_In 1 20 m ltac:(lia))).
  unfold quotient_ok in H. unfold storeCalibrationValue.
  destruct (float_to_uint8 _) as [b |].
  - apply andb_prop in H. destruct H as (Hb & Hle).
    apply Z.eqb_eq in Hb. apply Z.leb_le in Hle. subst b.
    split; [reflexivity |]. split; [| lia].
    intros Hlt. rewrite Z.div_small by lia. reflexivity.
  - apply Z.ltb_lt in H.
    split; [lia |]. split.
    + intros Hlt. rewrite Z.div_small in H by lia. lia.
    + intros _. eexists. reflexivity.
Qed.

Lemma X14_stored_quotient_witness :
  storeCalibrationValue 7 100 (boot (fun _ => 255)) =
    Done tt (EEPROM_update CALIBRATION_ADDR 14 (boot (fun _ => 255))) /\
  exists q, storeCalibrationValue 2 1000 (boot (fun _ => 255))
            = NoByte q (boot (fun _ => 255)).
Proof.
  split.
  - apply (proj1 (X14_stored_quotient 100 7 (boot (fun _ => 255))
                    ltac:(lia) ltac:(lia))).
    vm_compute. discriminate.
  - apply (proj2 (proj2 (X14_stored_quotient 1000 2 (boot (fun _ => 255))
                           ltac:(lia) ltac:(lia)))).
    vm_compute. reflexivity.
Defined.

(** ** A whole calibration *)

(** X15.  A calibration from start to end.  If the step timer is due at
    each of the 4000 polls of the motor run, the first poll of the prompt
    that finds the button down is its [k]-th, the reading taken in that
    iteration is [x] in 0..1023, and the fuel covers both waits, then
    [handleCalibratingState] returns with the machine in Idle, the byte
    [10 / (x * 19 / 1023 + 1)] at the calibration address, every other
    EEPROM cell as before, and [4000 + 2 k + 2] hardware reads made. *)
Theorem X15_calibration_completes hw fuel k w
    (Hdue : forall i, (i < 4000)%nat -> step_due (hw (tick w + i)%nat) = true)
    (Hup : forall i, (i < k)%nat ->
             pin (hw (tick w + 4000 + 2 * i + 1)%nat) = HIGH)
    (Hdown : pin (hw (tick w + 4000 + 2 * k + 1)%nat) = LOW)
    (Hadc : 0 <= adc (hw (tick w + 4000 + 2 * k)%nat) <= 1023)
    (Hf : (4000 <= fuel)%nat) (Hk : (k < fuel)%nat) :
  let x := adc (hw (tick w + 4000 + 2 * k)%nat) in
  exists w',
    handleCalibratingState hw fuel w = Done tt w' /\
    currentState w' = Idle /\
    eeprom w' CALIBRATION_ADDR = 10 / (x * 19 / 1023 + 1) /\
    (forall a, a <> CALIBRATION_ADDR -> eeprom w' a = eeprom w a) /\
    tick w' = (tick w + 4000 + 2 * k + 2)%nat.
Proof.
  intros x.
  assert (Hm : exists w1, runCalibrationMotor hw fuel 10 w = Done tt w1 /\
                          tick w1 = (tick w + 4000)%nat).
  { unfold runCalibrationMotor. unfold STEPS_PER_REVOLUTION.
    change (10 * 400) with 4000. rewrite int16_small by lia.
    destruct (motor_setup w 4000) as (Hs & _ & _ & Hd & Ht & _).
    set (v := centerTextOnLCD _ _ _) in *.
    destruct (runMotorLoop_runs hw 4000 v fuel) as (w1 & R1 & R2 & _).
    - rewrite Hs. lia.
    - rewrite Hd. reflexivity.
    - intros i Hi. rewrite Ht. apply Hdue. exact Hi.
    - exact Hf.
    - exists w1. split; [exact R1 |]. rewrite R2, Ht. reflexivity. }
  destruct Hm as (w1 & Hmotor & Ht1).
  assert (Hq : exists w2,
            queryLoop hw fuel
              (lcd_call (LcdPrint "Set liquid vol.")
                 (lcd_setCursor 0 0 (lcd_call LcdClear w1)))
            = Done (int16 (map x 0 1023 1 20)) w2 /\
            tick w2 = (tick w + 4000 + 2 * k + 2)%nat).
  { match goal with
    | |- context [queryLoop hw fuel ?v] =>
        destruct (queryLoop_first_low hw k v fuel Hk)
          as (w2 & shown & R1 & R2 & _)
    end.
    - intros i Hi. world_simpl. rewrite Ht1. apply Hup. exact Hi.
    - world_simpl. rewrite Ht1. exact Hdown.
    - revert R1 R2. world_simpl. rewrite Ht1. fold x. intros R1 R2.
      exists w2. split; [exact R1 | exact R2]. }
  destruct Hq as (w2 & Hquery & Ht2).
  pose proof (map_reading_range x Hadc) as Hr.
  set (m := int16 (map x 0 1023 1 20)) in *.
  exists (set_currentState Idle (EEPROM_update CALIBRATION_ADDR (10 / m) w2)).
  assert (Hrun : handleCalibratingState hw fuel w =
                 Done tt (set_currentState Idle
                            (EEPROM_update CALIBRATION_ADDR (10 / m) w2))).
  { unfold handleCalibratingState. rewrite Hmotor. cbn [bind].
    unfold queryForMeasuredLiquid. rewrite Hquery. cbn [bind].
    rewrite (store_in_range m w2 Hr). reflexivity. }
  split; [exact Hrun |]. split; [reflexivity |].
  split; [| split].
  - cbn [eeprom set_currentState]. rewrite EEPROM_update_read.
    subst m. rewrite (map_reading x Hadc). reflexivity.
  - apply handleCalibratingState_vars in Hrun. apply Hrun.
  - cbn [tick set_currentState].
    unfold EEPROM_update. destruct (_ =? _); exact Ht2.
Qed.

Lemma X15_calibration_completes_witness :
  exists w',
    handleCalibratingState (calibration_bench 540 4005) 4001
      (boot (fun _ => 255)) = Done tt w' /\
    currentState w' = Idle /\ eeprom w' CALIBRATION_ADDR = 0.
Proof.
  assert (Hup : forall i, (i < 2)%nat ->
            pin (calibration_bench 540 4005
                   (tick (boot (fun _ => 255%Z)) + 4000 + 2 * i + 1)%nat)
            = HIGH).
  { intros i Hi. destruct i as [| [| i]]; [reflexivity | reflexivity | lia]. }
  destruct (X15_calibration_completes (calibration_bench 540 4005) 4001 2
              (boot (fun _ => 255)) ltac:(intros; reflexivity) Hup eq_refl
              ltac:(cbn; lia) ltac:(lia) ltac:(lia))
    as (w' & H1 & H2 & H3 & _).
  exists w'. split; [exact H1 |]. split; [exact H2 |].
  rewrite H3. reflexivity.
Defined.

(** ** A purge session *)

Lemma purge_start hw w :
  isPurging w = false -> pin (hw (tick w)) = LOW ->
  let w' := handlePurgingState hw w in
  isPurging w' = true /\ purgeEndTime w' = 0 /\ tick w' = S (tick w) /\
  currentState w' = currentState w.
Proof.
  intros Hp Hpin w'. subst w'. unfold handlePurgingState. rewrite Hp.
  cbn [negb]. world_simpl. rewrite Hpin. world_simpl.
  repeat split.
Qed.

(** X16.  A purge session.  Not yet purging, the handler finds the button
    down: purging starts with the settle timer cleared, whatever it held.
    The next invocation finds the button up and reads the clock [t1]
    (non-zero); the one after finds it up and reads [t2], more than
    2000 ms later (modulo 2^32): the machine is then in Idle with the
    purging flag down, ready for a new session.  A release seen while
    the clock reads 0 is not recorded: the timer stays clear and the
    settle delay only starts at a later invocation. *)
Theorem X16_purge_session hw w
    (Hp : isPurging w = false)
    (Hdown : pin (hw (tick w)) = LOW)
    (Hup1 : pin (hw (S (tick w))) = HIGH)
    (Ht1 : u32 (ms (hw (S (S (tick w))))) <> 0)
    (Hup2 : pin (hw (S (S (S (tick w))))) = HIGH)
    (Hlate : 2000 < u32 (u32 (ms (hw (S (S (S (S (tick w)))))))
                         - u32 (ms (hw (S (S (tick w))))))) :
  (isPurging (purgeRun hw 1 w) = true /\ purgeEndTime (purgeRun hw 1 w) = 0) /\
  (purgeEndTime (purgeRun hw 2 w) = u32 (ms (hw (S (S (tick w))))) /\
   currentState (purgeRun hw 2 w) = currentState w) /\
  (currentState (purgeRun hw 3 w) = Idle /\
   isPurging (purgeRun hw 3 w) = false /\
   tick (purgeRun hw 3 w) = (tick w + 5)%nat) /\
  (forall v, isPurging v = true -> purgeEndTime v = 0 ->
     pin (hw (tick v)) = HIGH -> u32 (ms (hw (S (tick v)))) = 0 ->
     purgeEndTime (handlePurgingState hw v) = 0 /\
     currentState (handlePurgingState hw v) = currentState v /\
     isPurging (handlePurgingState hw v) = true).
Proof.
  cbn [purgeRun].
  destruct (purge_start hw w Hp Hdown) as (A1 & A2 & A3 & A4).
  set (w1 := handlePurgingState hw w) in *.
  destruct (purging_step hw w1 A1)
    as [(Hc & _) | [(_ & _ & B) | [(_ & N & _) | (_ & N & _)]]];
    try congruence.
  rewrite A3 in B.
  assert (B1 : isPurging (handlePurgingState hw w1) = true)
    by (rewrite B; exact A1).
  assert (B2 : purgeEndTime (handlePurgingState hw w1)
               = u32 (ms (hw (S (S (tick w))))))
    by (rewrite B; reflexivity).
  assert (B3 : tick (handlePurgingState hw w1) = S (S (S (tick w))))
    by (rewrite B; cbn; rewrite A3; reflexivity).
  assert (B4 : currentState (handlePurgingState hw w1) = currentState w)
    by (rewrite B; exact A4).
  set (w2 := handlePurgingState hw w1) in *.
  split; [auto |]. split; [auto |]. split.
  - destruct (purging_step hw w2 B1)
      as [(Hc & _) | [(_ & Z0 & _) | [(_ & _ & _ & C) | (_ & _ & Hle & _)]]].
    + rewrite B3 in Hc. congruence.
    + congruence.
    + rewrite C. world_simpl. rewrite B3. repeat split. lia.
    + rewrite B3, B2 in Hle. lia.
  - intros v V1 V2 V3 V4.
    destruct (purging_step hw v V1)
      as [(Hc & _) | [(_ & _ & C) | [(_ & N & _) | (_ & N & _)]]];
      try congruence.
    rewrite C, V4. world_simpl. auto.
Qed.

Lemma X16_purge_session_witness :
  currentState
    (purgeRun press_then_release 3
       (set_currentState Purging (boot (fun _ => 255)))) = Idle.
Proof.
  apply (X16_purge_session press_then_release
           (set_currentState Purging (boot (fun _ => 255)))
           eq_refl eq_refl eq_refl ltac:(discriminate) eq_refl
           ltac:(reflexivity)).
Defined.

(** ** Text placement *)

Lemma centerTextOnLCD_lcd text row w :
  lcd (centerTextOnLCD text row w) =
  lcd w ++ [LcdSetCursor
              (u8 (int16 (u16 (16 - Z.of_nat (String.length text)) / 2)))
              (u8 row);
            LcdPrint text].
Proof.
  unfold centerTextOnLCD, lcd_setCursor, lcd_call. cbn [lcd set_lcd].
  rewrite <- app_assoc. reflexivity.
Qed.

(** X17.  [centerTextOnLCD] on the 16-column display.  A text of at most
    16 characters is placed at column [(16 - len) / 2]: it fits in the
    row and the right margin exceeds the left by at most one.  For a
    longer text (17..255 characters) the unsigned subtraction wraps and
    the cursor is sent to column [264 - (len + 1) / 2], which is beyond
    the display. *)
Theorem X17_centred_text text row w :
  let len := Z.of_nat (String.length text) in
  (len <= 16 ->
     lcd (centerTextOnLCD text row w) =
       lcd w ++ [LcdSetCursor ((16 - len) / 2) (u8 row); LcdPrint text] /\
     0 <= (16 - len) / 2 /\ (16 - len) / 2 + len <= 16 /\
     0 <= (16 - len - (16 - len) / 2) - (16 - len) / 2 <= 1) /\
  (17 <= len <= 255 ->
     lcd (centerTextOnLCD text row w) =
       lcd w ++ [LcdSetCursor (264 - (len + 1) / 2) (u8 row);
                 LcdPrint text] /\
     136 <= 264 - (len + 1) / 2).
Proof.
  intros len. rewrite centerTextOnLCD_lcd. fold len.
  assert (Hlen : 0 <= len) by (subst len; lia).
  split; intros H.
  - assert (E : u8 (int16 (u16 (16 - len) / 2)) = (16 - len) / 2).
    { unfold u8, u16. change (2 ^ 16) with 65536. change (2 ^ 8) with 256.
      rewrite (Z.mod_small (16 - len)) by lia.
      rewrite int16_small by (Z.to_euclidean_division_equations; lia).
      apply Z.mod_small. Z.to_euclidean_division_equations. lia. }
    rewrite E. split; [reflexivity |].
    Z.to_euclidean_division_equations. lia.
  - assert (E : u8 (int16 (u16 (16 - len) / 2)) = 264 - (len + 1) / 2).
    { unfold u8, u16. change (2 ^ 16) with 65536. change (2 ^ 8) with 256.
      assert (E1 : (16 - len) mod 65536 = 65552 - len).
      { symmetry. apply (Z.mod_unique _ _ (-1)); lia. }
      rewrite E1.
      rewrite int16_small by (Z.to_euclidean_division_equations; lia).
      symmetry. apply (Z.mod_unique _ _ 127);
        Z.to_euclidean_division_equations; lia. }
    rewrite E. split; [reflexivity |].
    Z.to_euclidean_division_equations. lia.
Qed.

Lemma X17_centred_text_witness :
  lcd (centerTextOnLCD "CALIBRATION" 0 (boot (fun _ => 255))) =
    [LcdSetCursor 2 0; LcdPrint "CALIBRATION"] /\
  lcd (centerTextOnLCD "Calibration finished" 0 (boot (fun _ => 255))) =
    [LcdSetCursor 254 0; LcdPrint "Calibration finished"].
Proof.
  split.
  - apply (proj1 (proj1 (X17_centred_text "CALIBRATION" 0
                           (boot (fun _ => 255))) ltac:(cbn; lia))).
  - apply (proj1 (proj2 (X17_centred_text "Calibration finished" 0
                           (boot (fun _ => 255))) ltac:(cbn; lia))).
Defined.

(** ** The progress bar off its scale *)

(** X18.  [displayCalibrationProgress] does not clamp.  Above 106 per cent
    (up to 2047, where the 16-bit product still fits) it writes
    [p * 16 / 100] filled cells, 17 or more, and no unfilled one; below
    -6 (down to -2048) it writes no filled cell and
    [16 + (- p) * 16 / 100] unfilled ones, 17 or more; from -6 to 106 the
    cells written are 16 in all. *)
Theorem X18_progress_bar_unclamped p w :
  let sent := lcd (displayCalibrationProgress p w) in
  (107 <= p <= 2047 ->
     sent = lcd w ++ LcdSetCursor 0 1
                  :: repeat (LcdWrite 255) (Z.to_nat (p * 16 / 100)) /\
     17 <= p * 16 / 100) /\
  (-2048 <= p <= -7 ->
     sent = lcd w ++ LcdSetCursor 0 1
                  :: repeat (LcdWrite 95)
                       (Z.to_nat (16 + (- p) * 16 / 100)) /\
     17 <= 16 + (- p) * 16 / 100) /\
  (-6 <= p <= 106 ->
     exists filled unfilled,
       sent = lcd w ++ LcdSetCursor 0 1
                    :: repeat (LcdWrite 255) filled
                    ++ repeat (LcdWrite 95) unfilled /\
       (filled + unfilled = 16)%nat).
Proof.
  intros sent. subst sent. rewrite displayCalibrationProgress_lcd.
  split; [| split]; intros H; rewrite int16_small by lia.
  - rewrite Z.quot_div_nonneg by lia.
    assert (Hq : 17 <= p * 16 / 100)
      by (apply Z.div_le_lower_bound; lia).
    split; [| exact Hq].
    replace (Z.to_nat (16 - p * 16 / 100)) with 0%nat by lia.
    cbn [repeat]. rewrite app_nil_r. reflexivity.
  - assert (E : p * 16 ÷ 100 = - ((- p) * 16 / 100)).
    { replace (p * 16) with (- ((- p) * 16)) by lia.
      rewrite Z.quot_opp_l by lia. rewrite Z.quot_div_nonneg by lia.
      reflexivity. }
    rewrite E.
    assert (Hq : 1 <= (- p) * 16 / 100)
      by (apply Z.div_le_lower_bound; lia).
    split; [| lia].
    replace (Z.to_nat (- (- p * 16 / 100))) with 0%nat by lia.
    cbn [repeat app]. do 3 f_equal. lia.
  - eexists. eexists. split; [reflexivity |].
    destruct (Z_lt_le_dec p 0) as [Hneg | Hpos].
    + assert (E : p * 16 ÷ 100 = 0).
      { apply Z.quot_small_iff; lia. }
      rewrite E. reflexivity.
    + rewrite Z.quot_div_nonneg by lia.
      assert (Hq : 0 <= p * 16 / 100 <= 16).
      { split; [apply Z.div_pos; lia |].
        apply Z.lt_succ_r. apply Z.div_lt_upper_bound; lia. }
      lia.
Qed.

Lemma X18_progress_bar_unclamped_witness :
  lcd (displayCalibrationProgress 150 (boot (fun _ => 255))) =
    LcdSetCursor 0 1 :: repeat (LcdWrite 255) 24 /\
  lcd (displayCalibrationProgress (-50) (boot (fun _ => 255))) =
    LcdSetCursor 0 1 :: repeat (LcdWrite 95) 24.
Proof.
  split.
  - apply (proj1 (proj1 (X18_progress_bar_unclamped 150
                           (boot (fun _ => 255))) ltac:(lia))).
  - apply (proj1 (proj1 (proj2 (X18_progress_bar_unclamped (-50)
                                  (boot (fun _ => 255)))) ltac:(lia))).
Defined.

(** ** What can block, and the toggle *)

Ltac reads_by_cases :=
  repeat (branch; cbn -[u32 Z.leb Z.ltb Z.eqb Z.sub int16 u8 u16]); lia.

Lemma menu_gate_reads hw v : (tick (menu_gate hw v) <= tick v + 1)%nat.
Proof.
  destruct v as [c p b i g s ip pe ee l m t]. unfold menu_gate.
  cbn -[u32 Z.leb Z.ltb Z.eqb Z.sub int16 u8 u16]. reads_by_cases.
Qed.

Lemma menu_detect_reads hw v : (tick (menu_detect hw v) <= tick v + 2)%nat.
Proof.
  destruct v as [c p b i g s ip pe ee l m t]. unfold menu_detect.
  cbn -[u32 Z.leb Z.ltb Z.eqb Z.sub int16 u8 u16]. reads_by_cases.
Qed.

Lemma short_handlers_reads hw v :
  (tick (handleCalibrationMenuState hw v) <= tick v + 3)%nat /\
  (tick (handlePurgingState hw v) <= tick v + 2)%nat.
Proof.
  split.
  - rewrite handleCalibrationMenuState_halves.
    pose proof (menu_gate_reads hw v) as H1.
    pose proof (menu_detect_reads hw (menu_text (menu_gate hw v))) as H2.
    change (tick (menu_text (menu_gate hw v))) with (tick (menu_gate hw v))
      in H2.
    lia.
  - destruct (isPurging v) eqn:Hp.
    + destruct (purging_step hw v Hp)
        as [(_ & ->) | [(_ & _ & ->) | [(_ & _ & _ & ->) | (_ & _ & _ & ->)]]];
        cbn; lia.
    + unfold handlePurgingState. rewrite Hp. cbn [negb]. world_simpl.
      destruct (pin (hw (tick v))); world_simpl; lia.
Qed.

(** X19.  Only the Calibrating dispatch can block.  In every other state
    an iteration of [loop] returns whatever the hardware answers, with no
    fuel at all, after at most three hardware reads; in Idle, Running and
    Canceled it makes none and leaves the state as it is. *)
Theorem X19_loop_returns_outside_calibration hw fuel w
    (Hc : currentState w <> Calibrating) :
  exists w',
    loop hw fuel w = Done tt w' /\
    (tick w' <= tick w + 3)%nat /\
    (currentState w <> CalibrationMenu -> currentState w <> Purging ->
     tick w' = tick w /\ currentState w' = currentState w).
Proof.
  unfold loop.
  set (v := if negb (SystemState_eqb (currentState w) (previousState w))
            then _ else w).
  assert (Hv : currentState v = currentState w /\ tick v = tick w)
    by (subst v; destruct (negb _); split; reflexivity).
  destruct Hv as (Vc & Vt). clearbody v. rewrite <- Vc, <- Vt in *.
  destruct (short_handlers_reads hw v) as (Hm & Hp).
  destruct (currentState v) eqn:E.
  - exists (handleIdleState v). split; [reflexivity |].
    split; [cbn; lia |]. intros _ _. split; [reflexivity | exact E].
  - exists (handleCalibrationMenuState hw v). split; [reflexivity |].
    split; [exact Hm |]. intros N. contradiction.
  - contradiction.
  - exists (handlePurgingState hw v). split; [reflexivity |].
    split; [lia |]. intros _ N. contradiction.
  - exists (handleRunningState v). split; [reflexivity |].
    split; [cbn; lia |]. intros _ _. split; [reflexivity | exact E].
  - exists (handleCanceledState v). split; [reflexivity |].
    split; [unfold handleCanceledState; lia |]. intros _ _. split; [reflexivity | exact E].
Qed.

Lemma X19_loop_returns_outside_calibration_witness :
  exists w',
    loop (confirming 0) 0 (entering Purging CalibrationMenu) = Done tt w' /\
    (tick w' <= 3)%nat.
Proof.
  destruct (X19_loop_returns_outside_calibration (confirming 0) 0
              (entering Purging CalibrationMenu) ltac:(discriminate))
    as (w' & H1 & H2 & _).
  exists w'. split; [exact H1 | exact H2].
Defined.

(** A press-release cycle through the interrupt handler, in one equation. *)
Lemma press_release_state hw w :
  isButtonPressed w = false ->
  pin (hw (tick w)) = LOW -> pin (hw (S (S (tick w)))) = HIGH ->
  let d := u32 (u32 (ms (hw (S (S (S (tick w)))))) - u32 (ms (hw (S (tick w))))) in
  let w2 := buttonPressISR hw (buttonPressISR hw w) in
  currentState w2 = currentState (pressEffect (classifyPress d) w) /\
  isButtonPressed w2 = false /\ tick w2 = S (S (S (S (tick w)))).
Proof.
  intros Hfree Hdown Hup d w2. subst w2.
  rewrite (buttonPressISR_press hw w Hdown Hfree).
  rewrite buttonPressISR_release by (world_simpl; auto).
  unfold pressDuration. world_simpl. fold d.
  destruct (classifyPress d); cbn [pressEffect]; world_simpl;
    try (repeat split; fail).
  destruct (currentState w); repeat split.
Qed.

(** X20.  The run/stop toggle.  Through the interrupt handler, a press of
    50 to 1500 ms takes Idle to Running and Running to Idle and leaves
    every other state alone; two such presses in a row bring the machine
    back to the state it was in. *)
Theorem X20_fast_press_toggle hw w
    (Hfree : isButtonPressed w = false)
    (Hdown1 : pin (hw (tick w)) = LOW)
    (Hup1 : pin (hw (tick w + 2)%nat) = HIGH)
    (Hdown2 : pin (hw (tick w + 4)%nat) = LOW)
    (Hup2 : pin (hw (tick w + 6)%nat) = HIGH)
    (Hd1 : classifyPress (u32 (u32 (ms (hw (tick w + 3)%nat))
                               - u32 (ms (hw (tick w + 1)%nat)))) = Fast)
    (Hd2 : classifyPress (u32 (u32 (ms (hw (tick w + 7)%nat))
                               - u32 (ms (hw (tick w + 5)%nat)))) = Fast) :
  let once := buttonPressISR hw (buttonPressISR hw w) in
  let twice := buttonPressISR hw (buttonPressISR hw once) in
  currentState once = match currentState w with
                      | Idle => Running
                      | Running => Idle
                      | s => s
                      end /\
  currentState twice = currentState w.
Proof.
  intros once twice.
  replace (tick w + 2)%nat with (S (S (tick w))) in Hup1 by lia.
  replace (tick w + 3)%nat with (S (S (S (tick w)))) in Hd1 by lia.
  replace (tick w + 1)%nat with (S (tick w)) in Hd1 by lia.
  destruct (press_release_state hw w Hfree Hdown1 Hup1) as (A1 & A2 & A3).
  fold once in A1, A2, A3. rewrite Hd1 in A1.
  assert (B : currentState once = match currentState w with
                                  | Idle => Running
                                  | Running => Idle
                                  | s => s
                                  end).
  { rewrite A1. cbn [pressEffect].
    destruct (currentState w) eqn:E; world_simpl; rewrite ?E; reflexivity. }
  split; [exact B |].
  destruct (press_release_state hw once A2) as (C1 & _).
  - rewrite A3. replace (S (S (S (S (tick w))))) with (tick w + 4)%nat by lia.
    exact Hdown2.
  - rewrite A3.
    replace (S (S (S (S (S (S (tick w))))))) with (tick w + 6)%nat by lia.
    exact Hup2.
  - fold twice in C1. rewrite A3 in C1.
    replace (S (S (S (S (S (S (S (tick w)))))))) with (tick w + 7)%nat
      in C1 by lia.
    replace (S (S (S (S (S (tick w)))))) with (tick w + 5)%nat in C1 by lia.
    rewrite Hd2 in C1. rewrite C1. cbn [pressEffect]. rewrite B.
    destruct (currentState w) eqn:E; world_simpl; rewrite ?B, ?E;
      reflexivity.
Qed.

Lemma X20_fast_press_toggle_witness :
  let hw := steady_clicks in
  currentState (buttonPressISR hw (buttonPressISR hw (boot (fun _ => 255))))
    = Running /\
  currentState
    (buttonPressISR hw (buttonPressISR hw
       (buttonPressISR hw (buttonPressISR hw (boot (fun _ => 255))))))
    = Idle.
Proof.
  intros hw.
  exact (X20_fast_press_toggle steady_clicks (boot (fun _ => 255))
           eq_refl eq_refl eq_refl eq_refl eq_refl eq_refl eq_refl).
Defined.
